(** * langchain-avp: credential provider, client factory and audit callback

    A shallow embedding of [langchain_avp/credential_provider.py],
    [langchain_avp/utils.py] and [langchain_avp/callbacks.py], followed by
    the properties established about them.

    Conventions of the embedding.
    - A Python [str] is a [string].  [str.lower] is not defined here: it
      is a parameter (the class [Lower]), so that what is proved about
      the code holds for Python's own, Unicode-aware lower-casing.
    - A method is a function in the monad [Py.M S]: it takes the state of
      the objects it works on and gives back an outcome (a returned value
      or a raised exception) together with the state it left behind.  A
      raise keeps the state changes made before it, as in Python.
    - Exceptions are the instances of Python's [Exception]; signals such
      as [KeyboardInterrupt] are outside the model.
    - The vault client ([avp.AVPClient]), the constructors of the [avp]
      package and [getpass], the [str]/[bytes] codec and the LangChain
      chat-model classes are external: they are interfaces (type
      classes) here, and every definition is generic in them. *)

From Stdlib Require Import Ascii ZArith.
From Stdlib.Strings Require Import Byte.
From stdpp Require Import base option list gmap strings.

(** ** Python outcomes and the state-and-exception monad *)

Module Py.

Inductive exn : Type :=
| ValueError (msg : string)
| ImportError (msg : string)
| AttributeError (msg : string)
| TypeError (msg : string)
| KeyError (msg : string)
| IndexError (msg : string)
| UnicodeDecodeError
| ExternalError (cls msg : string).

Inductive outcome (A : Type) : Type :=
| Returns (a : A)
| Raises (e : exn).
Arguments Returns {A} a.
Arguments Raises {A} e.

Definition M (S A : Type) : Type := S -> outcome A * S.

Definition ret {S A} (a : A) : M S A := fun s => (Returns a, s).

Definition bind {S A B} (m : M S A) (k : A -> M S B) : M S B :=
  fun s => match m s with
           | (Returns a, s') => k a s'
           | (Raises e, s') => (Raises e, s')
           end.

Definition raise {S A} (e : exn) : M S A := fun s => (Raises e, s).

(** [try: m except Exception: h] *)
Definition try_except {S A} (m : M S A) (h : exn -> M S A) : M S A :=
  fun s => match m s with
           | (Returns a, s') => (Returns a, s')
           | (Raises e, s') => h e s'
           end.

(** The value of an outcome paired with a state, [None] when it raised. *)
Definition fst_result {S A} (r : outcome (option A) * S) : option A :=
  match fst r with
  | Returns a => a
  | Raises _ => None
  end.

(** The value a call returned, [None] when it raised. *)
Definition fst_value {S A} (r : outcome A * S) : option A :=
  match fst r with
  | Returns a => Some a
  | Raises _ => None
  end.

Definition gets {S A} (f : S -> A) : M S A := fun s => (Returns (f s), s).
Definition modify {S} (f : S -> S) : M S unit := fun s => (Returns tt, f s).

(** [s.lower()], Python's lower-casing of a [str], over all of Unicode.
    The case mappings are the interpreter's, so the method is a
    parameter; a [string] holds the text of the [str]. *)
Class Lower : Type := {
  lower : string -> string
}.

(** Truth value of an [Optional[str]]: [None] and the empty string are falsy. *)
Definition truthy_str (o : option string) : bool :=
  match o with
  | None => false
  | Some EmptyString => false
  | Some (String _ _) => true
  end.

(** [x or d] for an [Optional[str]] [x] and a [str] [d]. *)
Definition str_or (o : option string) (d : string) : string :=
  match o with
  | Some (String c s) => String c s
  | _ => d
  end.

End Py.

Import Py.

Notation "x <- m ;; k" := (bind m (fun x => k))
  (at level 100, m at next level, right associativity).
Notation "m ;;; k" := (bind m (fun _ => k))
  (at level 100, right associativity).

(** ** External collaborators *)

Definition bytes : Type := list byte.
Abbreviation labels := (gmap string string).

(** [str.encode()] and [bytes.decode()]; [decode] gives [None] where
    Python raises [UnicodeDecodeError]. *)
Class Codec : Type := {
  encode : string -> bytes;
  decode : bytes -> option string
}.

(** The methods of [avp.AVPClient] that the provider calls.  [B] is the
    state of the client object together with the backend it wraps; each
    method may return or raise, and may change that state.  [retrieve]
    gives the [value] of the result, [delete] its [deleted] flag. *)
Class AVPClient (B : Type) : Type := {
  client_authenticate : string -> B -> outcome string * B;
  client_retrieve : option string -> string -> B -> outcome bytes * B;
  client_store : option string -> string -> bytes -> option labels -> B -> outcome unit * B;
  client_delete : option string -> string -> B -> outcome bool * B;
  client_rotate : option string -> string -> bytes -> B -> outcome unit * B;
  client_close : B -> outcome unit * B
}.

(** What the constructor of the provider calls before it has a client:
    [getpass.getpass(prompt)], [FileBackend(vault_path, password)],
    [MemoryBackend()], each giving its result or raising, and
    [AVPClient(backend)], which gives the state of the client together
    with the backend it wraps, or raises. *)
Class Backends (B : Type) : Type := {
  getpass : string -> outcome string;
  FileBackend : string -> string -> outcome B;
  MemoryBackend : outcome B;
  new_client : B -> outcome B
}.

(** The chat-model classes that [get_llm_with_avp] imports and builds. *)
Inductive chat_model : Type :=
| ChatAnthropic
| ChatOpenAI
| ChatCohere
| ChatMistralAI.

(** [importable c] tells whether the import of class [c] succeeds;
    [construct c api_key model kwargs] is the constructor call. *)
Class Sdk (Kw LLM : Type) : Type := {
  importable : chat_model -> bool;
  construct : chat_model -> string -> string -> Kw -> outcome LLM
}.

(** Calls made on the vault client and on the chat-model classes, in the
    order they happen. *)
Inductive call : Type :=
| CallAuthenticate (workspace : string)
| CallRetrieve (session : option string) (name : string)
| CallStore (session : option string) (name : string) (value : bytes) (lbls : option labels)
| CallDelete (session : option string) (name : string)
| CallRotate (session : option string) (name : string) (value : bytes)
| CallClose
| CallConstruct (cls : chat_model) (api_key model : string).

(** How often the client was closed in a log of calls. *)
Definition is_close (c : call) : bool :=
  match c with
  | CallClose => true
  | _ => false
  end.

Definition closes (tr : list call) : nat := length (filter is_close tr).

Definition is_construct (c : call) : bool :=
  match c with
  | CallConstruct _ _ _ => true
  | _ => false
  end.

(** The part of the backend contract that reading after writing rests
    on: within a session, a secret that was stored is the one retrieved,
    and a secret that was deleted is not found. *)
Class StoresSecrets (B : Type) `{!AVPClient B} : Prop := {
  retrieve_after_store sid name value lbls b b' :
    client_store sid name value lbls b = (Returns tt, b') ->
    fst (client_retrieve sid name b') = Returns value;
  retrieve_after_delete sid name deleted b b' :
    client_delete sid name b = (Returns deleted, b') ->
    exists e, fst (client_retrieve sid name b') = Raises e
}.

(** ** credential_provider.py *)

Module AVPCredentialProvider.

(** The attributes of an [AVPCredentialProvider] that has a backend.
    [_client] is [Some tt] once [AVPClient(self._backend)] has been
    built; the state of that client lives in [_backend].  [trace] is a
    ghost field: the log of the calls made on the client and on the
    chat-model classes so far. *)
Record t (B : Type) : Type := mk {
  _workspace : string;
  _backend : B;
  _client : option unit;
  _session_id : option string;
  trace : list call
}.
Arguments mk {B}.
Arguments _workspace {B}.
Arguments _backend {B}.
Arguments _client {B}.
Arguments _session_id {B}.
Arguments trace {B}.

Section Methods.
Context {B : Type} `{!AVPClient B} `{!Codec} `{!Lower} `{!Backends B}.

Definition set_client (c : option unit) (s : t B) : t B :=
  mk (_workspace s) (_backend s) c (_session_id s) (trace s).

Definition set_session_id (sid : option string) (s : t B) : t B :=
  mk (_workspace s) (_backend s) (_client s) sid (trace s).

(** [self._client.meth(...)]: an [AttributeError] when [_client] is
    [None], otherwise the client's method, run on the backend state and
    logged. *)
Definition client_call {A} (meth : string) (c : call)
    (op : B -> outcome A * B) : M (t B) A :=
  fun s =>
    match _client s with
    | None =>
        (Raises (AttributeError
           ("'NoneType' object has no attribute '" +:+ meth +:+ "'")), s)
    | Some _ =>
        let '(r, b) := op (_backend s) in
        (r, mk (_workspace s) b (_client s) (_session_id s) (trace s ++ [c]))
    end.

(** [self._client = AVPClient(self._backend)], then the authentication
    and [self._session_id = session.session_id]. *)
Definition _connect : M (t B) unit :=
  client <- (fun s => (new_client (_backend s), s)) ;;
  modify (fun s =>
    mk (_workspace s) client (Some tt) (_session_id s) (trace s)) ;;;
  ws <- gets _workspace ;;
  session_id <- client_call "authenticate" (CallAuthenticate ws)
                  (client_authenticate ws) ;;
  modify (set_session_id (Some session_id)).

(** The three branches of [__init__] that settle [self._backend]: the
    [backend] given, else the file backend of [vault_path], with the
    password prompted for when it is [None], else the in-memory
    backend. *)
Definition select_backend (vault_path password : option string)
    (backend : option B) : outcome B :=
  match backend with
  | Some b => Returns b
  | None =>
      match vault_path with
      | Some path =>
          match password with
          | Some pw => FileBackend path pw
          | None =>
              match getpass ("Enter password for " +:+ path +:+ ": ") with
              | Returns pw => FileBackend path pw
              | Raises e => Raises e
              end
          end
      | None => MemoryBackend
      end
  end.

(** The state that comes back is [None] when the constructor raised
    before the provider had a backend; no call on a client has been
    made then. *)
Definition __init__ (vault_path password : option string)
    (workspace : string) (backend : option B)
    : outcome unit * option (t B) :=
  match select_backend vault_path password backend with
  | Raises e => (Raises e, None)
  | Returns b =>
      let '(r, s) := _connect (mk workspace b None None []) in (r, Some s)
  end.

(** [try: return self._client.retrieve(...).value.decode()]
    [except Exception: return default] *)
Definition get (name : string) (default : option string)
    : M (t B) (option string) :=
  try_except
    (sid <- gets _session_id ;;
     value <- client_call "retrieve" (CallRetrieve sid name)
                (client_retrieve sid name) ;;
     match decode value with
     | Some s => ret (Some s)
     | None => raise UnicodeDecodeError
     end)
    (fun _ => ret default).

Definition set (name value : string) (lbls : option labels) : M (t B) unit :=
  sid <- gets _session_id ;;
  client_call "store" (CallStore sid name (encode value) lbls)
    (client_store sid name (encode value) lbls).

Definition delete (name : string) : M (t B) bool :=
  sid <- gets _session_id ;;
  client_call "delete" (CallDelete sid name) (client_delete sid name).

Definition rotate (name new_value : string) : M (t B) unit :=
  sid <- gets _session_id ;;
  client_call "rotate" (CallRotate sid name (encode new_value))
    (client_rotate sid name (encode new_value)).

Definition key_mapping : gmap string string :=
  <["anthropic" := "anthropic_api_key"]>
  (<["openai" := "openai_api_key"]>
  (<["cohere" := "cohere_api_key"]>
  (<["huggingface" := "huggingface_api_key"]>
  (<["google" := "google_api_key"]>
  (<["mistral" := "mistral_api_key"]> ∅))))).

(** [key_mapping.get(provider.lower(), f"{provider.lower()}_api_key")] *)
Definition credential_name (provider : string) : string :=
  default (lower provider +:+ "_api_key") (key_mapping !! lower provider).

Definition get_api_key (provider : string) : M (t B) (option string) :=
  get (credential_name provider) None.

(** [if self._client: self._client.close()]; a client object is truthy. *)
Definition close : M (t B) unit :=
  fun s =>
    match _client s with
    | Some _ => client_call "close" CallClose client_close s
    | None => ret tt s
    end.

Definition __enter__ : M (t B) unit := ret tt.

(** [__exit__] closes and returns [False]: it never suppresses. *)
Definition __exit__ (exc : option exn) : M (t B) bool :=
  close ;;; ret false.

(** [with provider: body], for a provider already constructed: [body]
    runs after [__enter__]; [__exit__] runs on the way out, with the
    exception when [body] raised one, which is then re-raised unless
    [__exit__] returned a true value. *)
Definition with_ (body : M (t B) unit) : M (t B) unit :=
  fun s =>
    match __enter__ s with
    | (Raises e, s0) => (Raises e, s0)
    | (Returns _, s0) =>
        match body s0 with
        | (Returns _, s1) =>
            match __exit__ None s1 with
            | (Returns _, s2) => (Returns tt, s2)
            | (Raises e', s2) => (Raises e', s2)
            end
        | (Raises e, s1) =>
            match __exit__ (Some e) s1 with
            | (Returns suppress, s2) =>
                if suppress then (Returns tt, s2) else (Raises e, s2)
            | (Raises e', s2) => (Raises e', s2)
            end
        end
    end.

(** A block that does not close the provider itself and leaves its
    client attached. *)
Definition leaves_open {A} (body : M (t B) A) : Prop :=
  forall s, _client s <> None ->
    _client (snd (body s)) <> None
    /\ closes (trace (snd (body s))) = closes (trace s).

End Methods.

End AVPCredentialProvider.

(** ** utils.py *)

Module Utils.

Import AVPCredentialProvider.

Section Factory.
Context {B : Type} `{!AVPClient B} `{!Codec} `{!Lower}.
Context {Kw LLM : Type} `{!Sdk Kw LLM}.

(** The [ValueError] raised when no API key was found. *)
Definition no_api_key (provider : string) : exn :=
  ValueError ("No API key found for provider: " +:+ provider).

(** The [ValueError] raised in the final [else] branch. *)
Definition unknown_provider (provider : string) : exn :=
  ValueError ("Unknown provider: " +:+ provider +:+ ". "
              +:+ "Supported: anthropic, openai, cohere, mistral").

(** One branch of the dispatch: the guarded import, then the constructor
    call, which is logged. *)
Definition import_and_construct (cls : chat_model) (install : string)
    (api_key model : string) (kwargs : Kw) : M (t B) LLM :=
  if importable cls then
    fun s =>
      (construct cls api_key model kwargs,
       mk (_workspace s) (_backend s) (_client s) (_session_id s)
          (trace s ++ [CallConstruct cls api_key model]))
  else raise (ImportError install).

(** [if not api_key] holds for [None] and for the empty string; past it
    [provider] is rebound to its lower-cased form, and each branch passes
    [model or <default>]. *)
Definition get_llm_with_avp (provider : string) (model : option string)
    (kwargs : Kw) : M (t B) LLM :=
  api_key <- get_api_key provider ;;
  if negb (truthy_str api_key) then raise (no_api_key provider)
  else
    let api_key := default EmptyString api_key in
    let provider := lower provider in
    if String.eqb provider "anthropic" then
      import_and_construct ChatAnthropic
        "Install langchain-anthropic: pip install langchain-anthropic"
        api_key (str_or model "claude-3-haiku-20240307") kwargs
    else if String.eqb provider "openai" then
      import_and_construct ChatOpenAI
        "Install langchain-openai: pip install langchain-openai"
        api_key (str_or model "gpt-3.5-turbo") kwargs
    else if String.eqb provider "cohere" then
      import_and_construct ChatCohere
        "Install langchain-cohere: pip install langchain-cohere"
        api_key (str_or model "command") kwargs
    else if String.eqb provider "mistral" then
      import_and_construct ChatMistralAI
        "Install langchain-mistralai: pip install langchain-mistralai"
        api_key (str_or model "mistral-small-latest") kwargs
    else raise (unknown_provider provider).

End Factory.

End Utils.

(** ** Python objects on a heap

    The audit log is a list of dicts that callers can reach through the
    list [get_audit_log] returns, so lists and dicts are objects on a
    heap and values hold references to them.  A location is an index in
    the heap; allocation appends. *)

Module Heap.

Abbreviation loc := nat.

Inductive value : Type :=
| VNone
| VBool (b : bool)
| VInt (n : Z)
| VStr (s : string)
| VRef (l : loc).

Inductive object : Type :=
| OList (items : list value)
| ODict (fields : gmap string value).

Definition alloc (o : object) (h : list object) : loc * list object :=
  (length h, h ++ [o]).

Definition type_name (h : list object) (v : value) : string :=
  match v with
  | VNone => "NoneType"
  | VBool _ => "bool"
  | VInt _ => "int"
  | VStr _ => "str"
  | VRef l =>
      match h !! l with
      | Some (OList _) => "list"
      | Some (ODict _) => "dict"
      | None => "object"
      end
  end.

(** [bool(v)] *)
Definition truthy (h : list object) (v : value) : bool :=
  match v with
  | VNone => false
  | VBool b => b
  | VInt n => negb (n =? 0)%Z
  | VStr s => negb (String.eqb s EmptyString)
  | VRef l =>
      match h !! l with
      | Some (OList items) => negb (bool_decide (items = []))
      | Some (ODict fields) => negb (bool_decide (fields = ∅))
      | None => true
      end
  end.

(** [v.get(key, dflt)]: only a dict has the method. *)
Definition dict_get (h : list object) (v : value) (key : string)
    (dflt : value) : outcome value :=
  match v with
  | VRef l =>
      match h !! l with
      | Some (ODict fields) => Returns (default dflt (fields !! key))
      | _ => Raises (AttributeError
               ("'" +:+ type_name h v +:+ "' object has no attribute 'get'"))
      end
  | _ => Raises (AttributeError
           ("'" +:+ type_name h v +:+ "' object has no attribute 'get'"))
  end.

Fixpoint last_char (s : string) : option ascii :=
  match s with
  | EmptyString => None
  | String c EmptyString => Some c
  | String _ s' => last_char s'
  end.

(** [v[-1]] *)
Definition subscript_last (h : list object) (v : value) : outcome value :=
  match v with
  | VStr s =>
      match last_char s with
      | Some c => Returns (VStr (String c EmptyString))
      | None => Raises (IndexError "string index out of range")
      end
  | VRef l =>
      match h !! l with
      | Some (OList items) =>
          match last items with
          | Some x => Returns x
          | None => Raises (IndexError "list index out of range")
          end
      | Some (ODict _) => Raises (KeyError "-1")
      | None => Raises (TypeError "'object' object is not subscriptable")
      end
  | _ => Raises (TypeError
           ("'" +:+ type_name h v +:+ "' object is not subscriptable"))
  end.

(** A reference is to an object that is there. *)
Definition allocated (h : list object) (v : value) : Prop :=
  forall l, v = VRef l -> is_Some (h !! l).

(** The items of the list [v] refers to. *)
Definition list_items (h : list object) (v : value) : option (list value) :=
  match v with
  | VRef l =>
      match h !! l with
      | Some (OList items) => Some items
      | _ => None
      end
  | _ => None
  end.

(** The fields of the dict [v] refers to. *)
Definition dict_fields (h : list object) (v : value)
    : option (gmap string value) :=
  match v with
  | VRef l =>
      match h !! l with
      | Some (ODict fields) => Some fields
      | _ => None
      end
  | _ => None
  end.

(** What a reader of the list [v] sees: the fields of each of its
    entries, in order. *)
Definition read_entries (h : list object) (v : value)
    : option (list (gmap string value)) :=
  items ← list_items h v; mapM (dict_fields h) items.

(** [lst[:] = items], the most general mutation of a list object: any
    sequence of appends, removals, item assignments and reorderings ends
    in one. *)
Definition list_assign (l : loc) (items : list value) (h : list object)
    : list object :=
  match h !! l with
  | Some (OList _) => <[l := OList items]> h
  | _ => h
  end.

(** [d[key] = x] on the dict at [l]. *)
Definition dict_setitem (l : loc) (key : string) (x : value)
    (h : list object) : list object :=
  match h !! l with
  | Some (ODict fields) => <[l := ODict (<[key := x]> fields)]> h
  | _ => h
  end.

End Heap.

(** ** callbacks.py *)

Module AVPCredentialCallback.

Import Heap.

(** The attributes of the handler ([credential_provider] is stored and
    never used) and the heap its objects live on. *)
Record t : Type := mk {
  heap : list object;
  _audit_log : loc;
  _current_run : option string
}.

(** [LLMResult]: [llm_output] is [None] or a dict. *)
Record LLMResult : Type := mk_result {
  generations : list value;
  llm_output : value
}.

(** An error, as far as the handler looks at it: [str(error)] and
    [type(error).__name__]. *)
Record error_info : Type := mk_error {
  error_str : string;
  error_type_name : string
}.

(** A list or dict display: the object is allocated and referred to. *)
Definition new (o : object) : M t value :=
  fun s =>
    let '(l, h) := alloc o (heap s) in
    (Returns (VRef l), mk h (_audit_log s) (_current_run s)).

(** An operation that only reads the heap. *)
Definition lift {A} (f : list object -> outcome A) : M t A :=
  fun s => (f (heap s), s).

Definition set_current_run (r : option string) : M t unit :=
  modify (fun s => mk (heap s) (_audit_log s) r).

(** [self._audit_log = []] and [self._current_run = None], on a heap
    [h] that may already hold the caller's objects. *)
Definition __init__ (h : list object) : t :=
  let '(l, h') := alloc (OList []) h in mk h' l None.

(** [self._audit_log.append(entry)] *)
Definition append_entry (entry : value) : M t unit :=
  fun s =>
    match heap s !! _audit_log s with
    | Some (OList items) =>
        (Returns tt,
         mk (<[_audit_log s := OList (items ++ [entry])]> (heap s))
            (_audit_log s) (_current_run s))
    | _ => (Raises (AttributeError "object has no attribute 'append'"), s)
    end.

(** The entry dict of [_log]: three keys, and ["metadata"] when the
    metadata is truthy. *)
Definition entry_fields (now event : string) (run : option string)
    (has_metadata : bool) (metadata : value) : gmap string value :=
  let entry : gmap string value :=
    <["timestamp" := VStr now]>
    (<["event" := VStr event]>
    (<["run_id" := from_option VStr VNone run]> ∅)) in
  if has_metadata then <["metadata" := metadata]> entry else entry.

(** [now] is what [datetime.utcnow().isoformat()] gives during the call. *)
Definition _log (now : string) (event : string) (metadata : value)
    : M t unit :=
  run <- gets _current_run ;;
  has_metadata <- lift (fun h => Returns (truthy h metadata)) ;;
  e <- new (ODict (entry_fields now event run has_metadata metadata)) ;;
  append_entry e.

(** [serialized] is the dict as passed (its values may be references),
    [run_id] is [str(run_id)] when one is given.  The default arguments
    [{}] and [["unknown"]] are built before the [get] that takes them:
    - [self._current_run = str(run_id) if run_id else None]
    - [model = serialized.get("kwargs", {}).get("model", "unknown")]
    - [provider = serialized.get("id", ["unknown"])[-1]
         if serialized.get("id") else "unknown"]
    - [self._log("llm_start", {...})] *)
Definition on_llm_start (now : string) (serialized : gmap string value)
    (prompts : list string) (run_id : option string) : M t unit :=
  set_current_run (if truthy_str run_id then run_id else None) ;;;
  empty <- new (ODict ∅) ;;
  kwargs <- ret (default empty (serialized !! "kwargs")) ;;
  model <- lift (fun h => dict_get h kwargs "model" (VStr "unknown")) ;;
  has_id <- lift (fun h =>
              Returns (truthy h (default VNone (serialized !! "id")))) ;;
  provider <-
    (if has_id : bool then
       unknown <- new (OList [VStr "unknown"]) ;;
       lift (fun h => subscript_last h (default unknown (serialized !! "id")))
     else ret (VStr "unknown")) ;;
  metadata <- new (ODict
    (<["provider" := provider]>
    (<["model" := model]>
    (<["prompt_count" := VInt (Z.of_nat (length prompts))]> ∅)))) ;;
  _log now "llm_start" metadata.

(** - [token_usage = {}]
    - [if response.llm_output:
         token_usage = response.llm_output.get("token_usage", {})]
    - [self._log("llm_end", {...})], then [self._current_run = None] *)
Definition on_llm_end (now : string) (response : LLMResult) : M t unit :=
  token_usage <- new (ODict ∅) ;;
  has_output <- lift (fun h => Returns (truthy h (llm_output response))) ;;
  token_usage <-
    (if has_output : bool then
       empty <- new (ODict ∅) ;;
       lift (fun h => dict_get h (llm_output response) "token_usage" empty)
     else ret token_usage) ;;
  metadata <- new (ODict
    (<["generations" := VInt (Z.of_nat (length (generations response)))]>
    (<["token_usage" := token_usage]> ∅))) ;;
  _log now "llm_end" metadata ;;;
  set_current_run None.

(** [self._log("llm_error", {...})], then [self._current_run = None] *)
Definition on_llm_error (now : string) (error : error_info) : M t unit :=
  metadata <- new (ODict
    (<["error" := VStr (error_str error)]>
    (<["error_type" := VStr (error_type_name error)]> ∅))) ;;
  _log now "llm_error" metadata ;;;
  set_current_run None.

(** [return self._audit_log.copy()] *)
Definition get_audit_log : M t value :=
  fun s =>
    match heap s !! _audit_log s with
    | Some o => new o s
    | None => (Raises (AttributeError "object has no attribute 'copy'"), s)
    end.

(** [self._audit_log = []] *)
Definition clear_audit_log : M t unit :=
  fun s =>
    let '(l, h) := alloc (OList []) (heap s) in
    (Returns tt, mk h l (_current_run s)).

(** The handler's methods as data, to talk about sequences of calls. *)
Inductive method : Type :=
| OnLlmStart (now : string) (serialized : gmap string value)
    (prompts : list string) (run_id : option string)
| OnLlmEnd (now : string) (response : LLMResult)
| OnLlmError (now : string) (error : error_info)
| GetAuditLog
| ClearAuditLog.

Definition invoke (m : method) : M t value :=
  match m with
  | OnLlmStart now serialized prompts run_id =>
      on_llm_start now serialized prompts run_id ;;; ret VNone
  | OnLlmEnd now response => on_llm_end now response ;;; ret VNone
  | OnLlmError now error => on_llm_error now error ;;; ret VNone
  | GetAuditLog => get_audit_log
  | ClearAuditLog => clear_audit_log ;;; ret VNone
  end.

(** A caller making the calls [ms] one after the other, going on after a
    call that raised; the outcomes come back in call order. *)
Fixpoint invoke_all (ms : list method) (s : t) : list (outcome value) * t :=
  match ms with
  | [] => ([], s)
  | m :: ms' =>
      let '(r, s1) := invoke m s in
      let '(rs, s2) := invoke_all ms' s1 in
      (r :: rs, s2)
  end.

(** The event and the time a recording call logs; [None] for the two
    calls that record nothing. *)
Definition stamp (m : method) : option (string * string) :=
  match m with
  | OnLlmStart now _ _ _ => Some ("llm_start", now)
  | OnLlmEnd now _ => Some ("llm_end", now)
  | OnLlmError now _ => Some ("llm_error", now)
  | GetAuditLog | ClearAuditLog => None
  end.

(** What the sink holds: the entries of the internal list, as read. *)
Definition audit_entries (s : t) : option (list (gmap string value)) :=
  read_entries (heap s) (VRef (_audit_log s)).

(** The sink's own list is there. *)
Definition log_is_list (s : t) : Prop :=
  exists items, heap s !! _audit_log s = Some (OList items).

(** [s'] is [s] with more objects allocated. *)
Definition grown (s s' : t) : Prop :=
  _audit_log s' = _audit_log s /\ exists ext, heap s' = heap s ++ ext.

(** [s'] is [s] with more objects allocated, one of them the dict
    [entry] at [e], and a reference to it appended to the sink's list. *)
Definition recorded (e : loc) (entry : gmap string value) (s s' : t) : Prop :=
  _audit_log s' = _audit_log s
  /\ exists ext items,
       heap s !! _audit_log s = Some (OList items)
       /\ (heap s ++ ext) !! e = Some (ODict entry)
       /\ heap s' =
            <[_audit_log s := OList (items ++ [VRef e])]> (heap s ++ ext).

(** The event and the time an entry carries. *)
Definition entry_stamp (entry : gmap string value) : option (string * string) :=
  match entry !! "event", entry !! "timestamp" with
  | Some (VStr event), Some (VStr now) => Some (event, now)
  | _, _ => None
  end.

(** What a recording handler leaves behind: an entry with its stamp
    appended when it returns, only garbage when it raises. *)
Definition handled (event now : string) (s : t)
    (rs : outcome unit * t) : Prop :=
  match fst rs with
  | Returns _ =>
      exists e entry, recorded e entry s (snd rs)
                      /\ entry_stamp entry = Some (event, now)
  | Raises _ => grown s (snd rs)
  end.

Definition returned {A} (r : outcome A) : bool :=
  match r with
  | Returns _ => true
  | Raises _ => false
  end.

(** The stamps of the calls among [ms] that recorded something: those
    with a stamp whose outcome in [rs] is a return. *)
Definition recorded_stamps (ms : list method) (rs : list (outcome value))
    : list (string * string) :=
  omap (fun mr => if returned (snd mr) then stamp (fst mr) else None)
       (zip ms rs).

(** The shapes [on_llm_start] relies on: ["kwargs"], when present, is a
    dict, and ["id"], when present and truthy, is a list or a string. *)
Definition well_shaped (h : list object) (serialized : gmap string value)
    : Prop :=
  (forall v, serialized !! "kwargs" = Some v -> is_Some (dict_fields h v))
  /\ (forall v, serialized !! "id" = Some v ->
         allocated h v
         /\ (truthy h v = true ->
             is_Some (list_items h v) \/ exists str, v = VStr str)).

(** What a caller holding a reference can do with it: assign to a list,
    set a key of a dict. *)
Definition caller_list_assign (l : loc) (items : list value) (s : t) : t :=
  mk (list_assign l items (heap s)) (_audit_log s) (_current_run s).

Definition caller_dict_setitem (l : loc) (key : string) (x : value)
    (s : t) : t :=
  mk (dict_setitem l key x (heap s)) (_audit_log s) (_current_run s).

(** The event of the first entry of a log as read. *)
Definition first_event (es : option (list (gmap string value)))
    : option value :=
  match es with
  | Some (entry :: _) => entry !! "event"
  | _ => None
  end.

End AVPCredentialCallback.

(** ** Reference collaborators

    Concrete instances of the three interfaces, on which the code can be
    run: an in-memory vault in the shape of the backend contract, the
    ASCII codec, and an SDK with every chat-model package installed. *)

Module Reference.

Record vault : Type := mk_vault {
  secrets : gmap string bytes;
  is_open : bool
}.

Definition empty_vault : vault := mk_vault ∅ true.

Definition closed_error {A} (v : vault) : outcome A * vault :=
  (Raises (ExternalError "AVPError" "client is closed"), v).

#[export] Instance memory_client : AVPClient vault := {
  client_authenticate ws v :=
    if is_open v then (Returns ("session:" +:+ ws), v) else closed_error v;
  client_retrieve sid name v :=
    if is_open v then
      match secrets v !! name with
      | Some value => (Returns value, v)
      | None => (Raises (ExternalError "SecretNotFoundError" name), v)
      end
    else closed_error v;
  client_store sid name value lbls v :=
    if is_open v then (Returns tt, mk_vault (<[name := value]> (secrets v)) true)
    else closed_error v;
  client_delete sid name v :=
    if is_open v then
      (Returns (bool_decide (is_Some (secrets v !! name))),
       mk_vault (base.delete name (secrets v)) true)
    else closed_error v;
  client_rotate sid name value v :=
    if is_open v then
      match secrets v !! name with
      | Some _ => (Returns tt, mk_vault (<[name := value]> (secrets v)) true)
      | None => (Raises (ExternalError "SecretNotFoundError" name), v)
      end
    else closed_error v;
  client_close v := (Returns tt, mk_vault (secrets v) false)
}.

Definition is_upper (c : ascii) : bool :=
  (65 <=? nat_of_ascii c)%nat && (nat_of_ascii c <=? 90)%nat.

Definition lower_char (c : ascii) : ascii :=
  if is_upper c then ascii_of_nat (nat_of_ascii c + 32) else c.

Fixpoint lower_ascii (s : string) : string :=
  match s with
  | EmptyString => EmptyString
  | String c s' => String (lower_char c) (lower_ascii s')
  end.

(** [str.lower] on ASCII text: [A-Z] go to [a-z].  It is applied to
    ASCII names only. *)
#[export] Instance ascii_lower : Lower := {
  lower := lower_ascii
}.

Definition is_ascii_byte (b : byte) : bool := (Byte.to_N b <? 128)%N.

(** UTF-8 restricted to ASCII text: one byte per character, and bytes
    from 128 on are rejected. *)
#[export] Instance ascii_codec : Codec := {
  encode s := String.list_byte_of_string s;
  decode bs :=
    if forallb is_ascii_byte bs then Some (String.string_of_list_byte bs)
    else None
}.

(** Every package installed; a built client is the triple it was built
    from. *)
#[export] Instance full_sdk : Sdk unit (chat_model * string * string) := {
  importable _ := true;
  construct cls api_key model _ := Returns (cls, api_key, model)
}.

(** No package installed. *)
Definition bare_sdk : Sdk unit (chat_model * string * string) := {|
  importable _ := false;
  construct cls api_key model _ := Returns (cls, api_key, model)
|}.

(** An open vault holding the given names and values. *)
Definition vault_of (kvs : list (string * string)) : vault :=
  mk_vault (list_to_map (prod_map id encode <$> kvs)) true.

(** What every vault file holds. *)
Definition file_vault : vault :=
  vault_of [("anthropic_api_key", "sk-ant-test");
            ("openai_api_key", "sk-test")].

(** The constructors: there is no terminal to prompt on, the password
    of every vault file is "secret", and a client is built on any
    backend. *)
#[export] Instance reference_backends : Backends vault := {
  getpass prompt := Raises (ExternalError "EOFError" "EOF when reading a line");
  FileBackend vault_path password :=
    if String.eqb password "secret" then Returns file_vault
    else Raises (ExternalError "AVPError" "wrong password");
  MemoryBackend := Returns empty_vault;
  new_client backend := Returns backend
}.

(** The provider that
    [AVPCredentialProvider(workspace="langchain", backend=v)] builds. *)
Definition connected (v : vault) : AVPCredentialProvider.t vault :=
  snd (AVPCredentialProvider._connect
         (AVPCredentialProvider.mk "langchain" v None None [])).

(** A client like [memory_client] whose [close] raises. *)
Definition stuck_client : AVPClient vault := {|
  client_authenticate := client_authenticate (AVPClient := memory_client);
  client_retrieve := client_retrieve (AVPClient := memory_client);
  client_store := client_store (AVPClient := memory_client);
  client_delete := client_delete (AVPClient := memory_client);
  client_rotate := client_rotate (AVPClient := memory_client);
  client_close v := (Raises (ExternalError "AVPError" "close failed"), v)
|}.

(** A heap with the two objects a serialized chat model refers to, and
    that serialized form. *)
Definition model_heap : list Heap.object :=
  [Heap.ODict {["model" := Heap.VStr "claude-3-haiku-20240307"]};
   Heap.OList [Heap.VStr "langchain"; Heap.VStr "chat_models";
               Heap.VStr "ChatAnthropic"]].

Definition serialized_model : gmap string Heap.value :=
  <["kwargs" := Heap.VRef 0]> (<["id" := Heap.VRef 1]> ∅).

(** A run that starts and ends, seen by the handler. *)
Definition one_run : list AVPCredentialCallback.method :=
  [AVPCredentialCallback.OnLlmStart "2024-01-01T00:00:00" serialized_model
     ["Hello"] (Some "run-1");
   AVPCredentialCallback.OnLlmEnd "2024-01-01T00:00:01"
     (AVPCredentialCallback.mk_result [Heap.VStr "Hi"] Heap.VNone)].

(** A handler that has logged one error. *)
Definition one_error_logged : AVPCredentialCallback.t :=
  snd (AVPCredentialCallback.on_llm_error "2024-01-01T00:00:00"
         (AVPCredentialCallback.mk_error "boom" "ValueError")
         (AVPCredentialCallback.__init__ [])).

(** The entry that handler holds. *)
Definition error_entry : gmap string Heap.value :=
  <["metadata" := Heap.VRef 1]>
  (<["timestamp" := Heap.VStr "2024-01-01T00:00:00"]>
  (<["event" := Heap.VStr "llm_error"]>
  (<["run_id" := Heap.VNone]> ∅))).

(** A [with] block that stores a credential and then fails. *)
Definition failing_block : M (AVPCredentialProvider.t vault) unit :=
  AVPCredentialProvider.set "ctx_key" "ctx_value" None ;;;
  raise (ValueError "boom").

(** A [with] block that closes the provider itself. *)
Definition closing_block : M (AVPCredentialProvider.t vault) unit :=
  AVPCredentialProvider.close.

(** A [with] block that fails without a call. *)
Definition raising_block : M (AVPCredentialProvider.t vault) unit :=
  raise (ValueError "boom").

End Reference.

(** ** Sequences of calls on a provider *)

Module ProviderCalls.

Import AVPCredentialProvider.

(** The provider's methods as data. *)
Inductive op : Type :=
| Get (name : string) (default : option string)
| Set_ (name value : string) (lbls : option labels)
| Delete (name : string)
| Rotate (name new_value : string)
| GetApiKey (provider : string)
| Close.

Section Run.
Context {B : Type} `{!AVPClient B} `{!Codec} `{!Lower}.




End Run.

End ProviderCalls.

(** A rotated secret is the one retrieved afterwards. *)
Class RotatesSecrets (B : Type) `{!AVPClient B} : Prop := {
  retrieve_after_rotate sid name value b b' :
    client_rotate sid name value b = (Returns tt, b') ->
    fst (client_retrieve sid name b') = Returns value
}.

(** Retrieving leaves the backend as it is. *)
Class RetrieveIsRead (B : Type) `{!AVPClient B} : Prop := {
  retrieve_keeps_backend sid name b :
    snd (client_retrieve sid name b) = b
}.

(** ** utils.py: the branches of the dispatch as a table *)

Module Dispatch.

(** For each supported provider: the class built, the message of the
    [ImportError] when its package is missing, and the default model. *)
Definition branches : gmap string (chat_model * string * string) :=
  <["anthropic" :=
      (ChatAnthropic,
       "Install langchain-anthropic: pip install langchain-anthropic",
       "claude-3-haiku-20240307")]>
  (<["openai" :=
      (ChatOpenAI,
       "Install langchain-openai: pip install langchain-openai",
       "gpt-3.5-turbo")]>
  (<["cohere" :=
      (ChatCohere,
       "Install langchain-cohere: pip install langchain-cohere",
       "command")]>
  (<["mistral" :=
      (ChatMistralAI,
       "Install langchain-mistralai: pip install langchain-mistralai",
       "mistral-small-latest")]> ∅))).

End Dispatch.

(** ** utils.py: load_credentials *)

(** [os.environ]: reading a variable, and the assignment
    [os.environ[name] = value], which may raise. *)
Class Environ (E : Type) : Type := {
  environ_get : string -> E -> option string;
  environ_set : string -> string -> E -> outcome unit * E
}.

(** An assignment that returns has set the variable, and an assignment
    leaves every other variable alone. *)
Class LawfulEnviron (E : Type) `{!Environ E} : Prop := {
  environ_get_set k v e e' :
    environ_set k v e = (Returns tt, e') -> environ_get k e' = Some v;
  environ_get_set_other k k' v e :
    k <> k' -> environ_get k' (snd (environ_set k v e)) = environ_get k' e
}.

Module LoadCredentials.

Import AVPCredentialProvider.

Section Load.
Context {B : Type} `{!AVPClient B} `{!Codec} `{!Backends B}.
Context {E : Type} `{!Environ E}.

(** A method of the provider, in a state that also holds the
    environment. *)
Definition on_provider {A} (m : M (t B) A) : M (t B * E) A :=
  fun w => let '(r, s) := m (fst w) in (r, (s, snd w)).

Definition on_environ {A} (m : E -> outcome A * E) : M (t B * E) A :=
  fun w => let '(r, e) := m (snd w) in (r, (fst w, e)).

(** The body of the loop:
    [value = provider.get(cred_name)]
    [if value: os.environ[env_name] = value] *)
Definition load_one (env_name cred_name : string) : M (t B * E) unit :=
  value <- on_provider (get cred_name None) ;;
  if truthy_str value
  then on_environ (environ_set env_name (default EmptyString value))
  else ret tt.

(** [for env_name, cred_name in env_vars.items(): ...] *)
Fixpoint load_all (items : list (string * string)) : M (t B * E) unit :=
  match items with
  | [] => ret tt
  | (env_name, cred_name) :: rest =>
      load_one env_name cred_name ;;; load_all rest
  end.

(** [env_vars] is [None] or the items of the dict, in order.  The
    provider returned is the one in the final state, which is [None]
    when the constructor raised before the provider had a backend. *)
Definition load_credentials (vault_path : string) (password : option string)
    (workspace : string) (env_vars : option (list (string * string)))
    (env : E) : outcome unit * (option (t B) * E) :=
  match __init__ (Some vault_path) password workspace None with
  | (Raises e, s) => (Raises e, (s, env))
  | (Returns _, None) => (Returns tt, (None, env))
  | (Returns _, Some s) =>
      match env_vars with
      | Some (item :: items) =>
          let '(r, w) := load_all (item :: items) (s, env) in
          (r, (Some (fst w), snd w))
      | _ => (Returns tt, (Some s, env))
      end
  end.

(** The calls made on the client of a provider, none when there is no
    provider. *)
Definition calls_made (s : option (t B)) : list call :=
  match s with
  | Some s => trace s
  | None => []
  end.

(** What [provider.get(cred_name)] gives in the state [s]. *)
Definition found (s : t B) (cred_name : string) : option string :=
  fst_result (get cred_name None s).

End Load.

End LoadCredentials.

(** More reference collaborators and inputs. *)

Module Reference2.

(** An environment in which every assignment succeeds. *)
#[export] Instance map_environ : Environ (gmap string string) := {
  environ_get k e := e !! k;
  environ_set k v e := (Returns tt, <[k := v]> e)
}.

Definition two_keys : Reference.vault :=
  Reference.vault_of [("anthropic_api_key", "sk-ant-test");
                      ("openai_api_key", "sk-test")].

Definition env_vars_example : list (string * string) :=
  [("ANTHROPIC_API_KEY", "anthropic_api_key");
   ("COHERE_API_KEY", "cohere_api_key");
   ("OPENAI_API_KEY", "openai_api_key")].

Definition old_environ : gmap string string :=
  <["COHERE_API_KEY" := "stale"]> (<["HOME" := "/root"]> ∅).

(** A heap with an [llm_output] dict that holds a token-usage dict. *)
Definition usage_heap : list Heap.object :=
  [Heap.ODict {["total_tokens" := Heap.VInt 42]};
   Heap.ODict {["token_usage" := Heap.VRef 0]}].

End Reference2.

(** * Properties *)

Import AVPCredentialProvider.

(** Unfolding of the monad's operations. *)
Ltac py_unfold :=
  unfold bind, ret, raise, try_except, gets, modify in *.

(** ** The credential provider *)

Section ProviderFacts.
Context {B : Type} `{!AVPClient B} `{!Codec} `{!Lower} `{!Backends B}.

Lemma client_call_detached {A} meth c (op : B -> outcome A * B) (s : t B) :
  _client s = None ->
  exists e, client_call meth c op s = (Raises e, s).
Proof. intros E. unfold client_call. rewrite E. eauto. Qed.

Lemma client_call_attached {A} meth c (op : B -> outcome A * B) (s : t B) :
  _client s <> None ->
  client_call meth c op s =
    (fst (op (_backend s)),
     mk (_workspace s) (snd (op (_backend s))) (_client s) (_session_id s)
        (trace s ++ [c])).
Proof.
  intros E. unfold client_call.
  destruct (_client s); [|congruence]. by destruct (op (_backend s)).
Qed.

(** What [get] does, case by case on the client and the codec. *)
Lemma get_detached name dflt (s : t B) :
  _client s = None -> get name dflt s = (Returns dflt, s).
Proof.
  intros E. unfold get. py_unfold. unfold client_call. by rewrite E.
Qed.

Lemma get_attached name dflt (s : t B) :
  _client s <> None ->
  get name dflt s =
    (Returns
       match fst (client_retrieve (_session_id s) name (_backend s)) with
       | Returns value => from_option Some dflt (decode value)
       | Raises _ => dflt
       end,
     mk (_workspace s)
        (snd (client_retrieve (_session_id s) name (_backend s)))
        (_client s) (_session_id s)
        (trace s ++ [CallRetrieve (_session_id s) name])).
Proof.
  intros E. unfold get. py_unfold. rewrite client_call_attached by done.
  destruct (client_retrieve _ _ _) as [[value|e] b]; simpl; [|done].
  by destruct (decode value).
Qed.

Lemma get_returns name dflt (s : t B) :
  exists r s', get name dflt s = (Returns r, s').
Proof.
  destruct (_client s) eqn:E.
  - rewrite get_attached by congruence. eauto.
  - rewrite get_detached by done. eauto.
Qed.

(** The calls [get] makes: one retrieval when a client is attached. *)
Lemma get_trace name dflt (s : t B) :
  trace (snd (get name dflt s)) =
    trace s ++ match _client s with
               | Some _ => [CallRetrieve (_session_id s) name]
               | None => []
               end.
Proof.
  destruct (_client s) eqn:E.
  - rewrite get_attached by congruence. done.
  - rewrite get_detached by done. simpl. by rewrite app_nil_r.
Qed.

Lemma get_keeps_client name dflt (s : t B) :
  _client (snd (get name dflt s)) = _client s
  /\ _session_id (snd (get name dflt s)) = _session_id s.
Proof.
  destruct (_client s) eqn:E.
  - rewrite get_attached by congruence. done.
  - rewrite get_detached by done. done.
Qed.

(** C3. [get(name, default)] never raises.  Whatever goes wrong -- no
    client attached, the retrieval raising (not found, transient fault),
    or the stored bytes failing to decode -- it returns [default], which
    is [None] when omitted; when the retrieval and the decoding succeed it
    returns the decoded value. *)
Theorem get_never_raises (name : string) (dflt : option string) (s : t B) :
  (exists r s', get name dflt s = (Returns r, s'))
  /\ (_client s = None -> fst (get name dflt s) = Returns dflt)
  /\ (forall e b,
        client_retrieve (_session_id s) name (_backend s) = (Raises e, b) ->
        fst (get name dflt s) = Returns dflt)
  /\ (forall value b,
        client_retrieve (_session_id s) name (_backend s) = (Returns value, b) ->
        decode value = None ->
        fst (get name dflt s) = Returns dflt)
  /\ (forall value b x,
        _client s <> None ->
        client_retrieve (_session_id s) name (_backend s) = (Returns value, b) ->
        decode value = Some x ->
        fst (get name dflt s) = Returns (Some x)).
Proof.
  split; [apply get_returns|].
  split; [intros E; by rewrite get_detached|].
  repeat split.
  - intros e b R. destruct (_client s) eqn:E.
    + rewrite get_attached by congruence. by rewrite R.
    + by rewrite get_detached.
  - intros value b R D. destruct (_client s) eqn:E.
    + rewrite get_attached by congruence. rewrite R. simpl. by rewrite D.
    + by rewrite get_detached.
  - intros value b x E R D. rewrite get_attached by done.
    rewrite R. simpl. by rewrite D.
Qed.

(** The table agrees with the naming convention. *)
Lemma key_mapping_lookup (p k : string) :
  key_mapping !! p = Some k -> k = p +:+ "_api_key".
Proof.
  unfold key_mapping. intros E.
  repeat (apply lookup_insert_Some in E as [[<- <-]|[_ E]]; [done|]).
  by rewrite lookup_empty in E.
Qed.

(** C4. The key computed for a provider is a function of its name alone:
    for the six providers of the table (after lower-casing) it is the
    table's entry, which is the provider followed by [_api_key]; for any
    other name the lookup misses and the same shape is synthesized from
    the lower-cased name.  [get_api_key] reads the vault under that key
    and does nothing else. *)
Theorem credential_name_total (provider : string) :
  credential_name provider = lower provider +:+ "_api_key"
  /\ (lower provider ∈ ["anthropic"; "openai"; "cohere"; "huggingface";
                        "google"; "mistral"]
      <-> key_mapping !! lower provider = Some (lower provider +:+ "_api_key"))
  /\ (forall (s : t B),
        get_api_key provider s = get (lower provider +:+ "_api_key") None s).
Proof.
  assert (N : credential_name provider = lower provider +:+ "_api_key").
  { unfold credential_name.
    destruct (key_mapping !! lower provider) as [k|] eqn:E; [|done].
    simpl. by apply key_mapping_lookup. }
  split; [done|]. split.
  - split.
    + intros I. repeat (apply elem_of_cons in I as [->|I]; [done|]).
      by apply elem_of_nil in I.
    + unfold key_mapping. intros E.
      repeat (apply lookup_insert_Some in E as [[<- _]|[_ E]];
              [set_solver|]).
      by rewrite lookup_empty in E.
  - intros s. unfold get_api_key. by rewrite N.
Qed.

Lemma set_returned name value lbls (s s1 : t B) :
  set name value lbls s = (Returns tt, s1) ->
  _client s1 <> None
  /\ _session_id s1 = _session_id s
  /\ client_store (_session_id s) name (encode value) lbls (_backend s)
     = (Returns tt, _backend s1).
Proof.
  unfold set. py_unfold. unfold client_call.
  destruct (_client s) eqn:E; [|done].
  destruct (client_store _ _ _ _ _) as [[[]|e] b]; [|done].
  intros [= <-]. done.
Qed.

Lemma delete_returned name deleted (s s1 : t B) :
  delete name s = (Returns deleted, s1) ->
  _client s1 <> None
  /\ _session_id s1 = _session_id s
  /\ client_delete (_session_id s) name (_backend s)
     = (Returns deleted, _backend s1).
Proof.
  unfold delete. py_unfold. unfold client_call.
  destruct (_client s) eqn:E; [|done].
  destruct (client_delete _ _ _) as [[d|e] b]; [|done].
  intros [= <- <-]. done.
Qed.

(** C5. On a backend that keeps what it is given, [get(name)] right
    after a [set(name, v)] that returned gives [v] (for a value the codec
    takes there and back), and [get(name, default)] right after a
    [delete(name)] that returned gives [default]. *)
Theorem get_after_set_and_delete `{!StoresSecrets B}
    (name : string) (dflt : option string) (s : t B) :
  (forall v lbls s1,
     set name v lbls s = (Returns tt, s1) ->
     decode (encode v) = Some v ->
     fst (get name dflt s1) = Returns (Some v))
  /\ (forall deleted s1,
        delete name s = (Returns deleted, s1) ->
        fst (get name dflt s1) = Returns dflt).
Proof.
  split.
  - intros v lbls s1 S D.
    apply set_returned in S as (C & I & S).
    apply retrieve_after_store in S.
    rewrite get_attached by done. simpl. rewrite I, S. simpl. by rewrite D.
  - intros deleted s1 S.
    apply delete_returned in S as (C & I & S).
    apply retrieve_after_delete in S as [e S].
    rewrite get_attached by done. simpl. by rewrite I, S.
Qed.

(** [__init__] leaves a client attached when it returns. *)
Lemma init_connected vault_path password workspace backend (s : t B) :
  __init__ vault_path password workspace backend = (Returns tt, Some s) ->
  _client s <> None /\ closes (trace s) = 0.
Proof.
  unfold __init__, _connect.
  destruct (select_backend _ _ _) as [b0|e]; [|done].
  py_unfold. unfold client_call. simpl.
  destruct (new_client b0) as [b1|e]; [|done]. simpl.
  destruct (client_authenticate _ _) as [[sid|e] b]; [|done].
  intros [= <-]. done.
Qed.

Lemma closes_app tr1 tr2 : closes (tr1 ++ tr2) = closes tr1 + closes tr2.
Proof. unfold closes. by rewrite filter_app, length_app. Qed.

(** [close] with a client attached: one call to the client's [close]. *)
Lemma close_attached (s : t B) :
  _client s <> None ->
  close s =
    (fst (client_close (_backend s)),
     mk (_workspace s) (snd (client_close (_backend s))) (_client s)
        (_session_id s) (trace s ++ [CallClose])).
Proof.
  intros E. unfold close. destruct (_client s) eqn:E'; [|done].
  rewrite client_call_attached by congruence. by rewrite E'.
Qed.

(** [__exit__] never asks for the exception to be suppressed. *)
Lemma exit_returns_false exc (s : t B) :
  forall r s', __exit__ exc s = (Returns r, s') -> r = false.
Proof.
  intros r s'. unfold __exit__. py_unfold.
  destruct (close s) as [[[]|e] s1]; [|done]. by intros [= <- _].
Qed.

(** C8, as the code has it.  A provider that was constructed and is
    then used as a context manager, with a block that does not close it
    itself, is closed exactly once, whether the block returns or raises:
    the log of calls from construction to the end of the [with] statement
    holds one [close], and it is the last call.  [__exit__] returns
    [False], so when the block raised, the [with] statement raises too:
    the block's own exception whenever the client's [close] returned,
    and the exception of [close] otherwise. *)
Theorem context_manager_closes_once (vault_path password : option string)
    (workspace : string) (backend : option B)
    (body : M (t B) unit) (s : t B) :
  __init__ vault_path password workspace backend = (Returns tt, Some s) ->
  leaves_open body ->
  closes (trace (snd (with_ body s))) = 1
  /\ last (trace (snd (with_ body s))) = Some CallClose
  /\ (forall exc s0 r s', __exit__ exc s0 = (Returns r, s') -> r = false)
  /\ (forall e, fst (body s) = Raises e ->
        (exists e', fst (with_ body s) = Raises e')
        /\ (fst (client_close (_backend (snd (body s)))) = Returns tt ->
            fst (with_ body s) = Raises e)
        /\ (forall e', fst (client_close (_backend (snd (body s)))) = Raises e' ->
            fst (with_ body s) = Raises e')).
Proof.
  intros I L. apply init_connected in I as [C Z].
  destruct (L s C) as [C1 N1].
  assert (W : with_ body s =
    (match fst (body s), fst (client_close (_backend (snd (body s)))) with
     | _, Raises e' => Raises e'
     | Returns _, Returns _ => Returns tt
     | Raises e, Returns _ => Raises e
     end,
     mk (_workspace (snd (body s)))
        (snd (client_close (_backend (snd (body s)))))
        (_client (snd (body s))) (_session_id (snd (body s)))
        (trace (snd (body s)) ++ [CallClose]))).
  { unfold with_, __enter__, __exit__. py_unfold.
    destruct (body s) as [[[]|e] s1]; simpl in *;
      rewrite close_attached by done;
      by destruct (client_close (_backend s1)) as [[[]|e'] b]. }
  rewrite W. simpl. split; [|split; [|split]].
  - rewrite closes_app, N1, Z. done.
  - by rewrite last_snoc.
  - intros exc s0 r s'. apply exit_returns_false.
  - intros e R. rewrite R. split; [|split].
    + destruct (fst (client_close _)); eauto.
    + by intros ->.
    + by intros e' ->.
Qed.

End ProviderFacts.

(** ** The client factory *)

Import Utils.

Section FactoryFacts.
Context {B : Type} `{!AVPClient B} `{!Codec} `{!Lower}.
Context {Kw LLM : Type} `{!Sdk Kw LLM}.

(** The guard of [get_llm_with_avp]: a key that is [None] or empty stops
    the call right after the lookup. *)
Lemma get_llm_no_key provider model (kwargs : Kw) (s : t B) :
  truthy_str (fst_result (get_api_key provider s)) = false ->
  get_llm_with_avp provider model kwargs s =
    (Raises (no_api_key provider) : outcome LLM, snd (get_api_key provider s)).
Proof.
  unfold fst_result, get_llm_with_avp, get_api_key. py_unfold.
  destruct (get_returns (credential_name provider) None s) as (r & s1 & ->).
  simpl. by intros ->.
Qed.

(** Past the guard, the call is the dispatch on the lower-cased name. *)
Lemma get_llm_unknown provider model (kwargs : Kw) (s : t B) :
  truthy_str (fst_result (get_api_key provider s)) = true ->
  lower provider ∉ ["anthropic"; "openai"; "cohere"; "mistral"] ->
  get_llm_with_avp provider model kwargs s =
    (Raises (unknown_provider (lower provider)) : outcome LLM,
     snd (get_api_key provider s)).
Proof.
  unfold fst_result, get_llm_with_avp, get_api_key. py_unfold.
  destruct (get_returns (credential_name provider) None s) as (r & s1 & ->).
  simpl. intros -> N. simpl.
  assert (F : forall x, x ∈ ["anthropic"; "openai"; "cohere"; "mistral"] ->
                String.eqb (lower provider) x = false).
  { intros x I. apply String.eqb_neq. intros E. apply N. by rewrite E. }
  rewrite !F by set_solver. done.
Qed.

(** C1, as the code has it.  A provider whose lower-cased name is none
    of anthropic, openai, cohere, mistral is rejected with the
    [ValueError] that names it and lists the supported providers,
    provided a non-empty API key was found for it: the key is looked up
    first, and without one the call has already failed with the other
    [ValueError].  No constructor is called; the only call made is the
    retrieval. *)
Theorem unknown_provider_rejected (provider : string) (model : option string)
    (kwargs : Kw) (s : t B) (key : string) :
  lower provider ∉ ["anthropic"; "openai"; "cohere"; "mistral"] ->
  fst (get_api_key provider s) = Returns (Some key) ->
  key <> EmptyString ->
  fst (get_llm_with_avp provider model kwargs s) =
    (Raises (ValueError ("Unknown provider: " +:+ lower provider
       +:+ ". Supported: anthropic, openai, cohere, mistral")) : outcome LLM)
  /\ trace (snd (get_llm_with_avp provider model kwargs s)) =
       trace (snd (get_api_key provider s)).
Proof.
  intros N K E.
  rewrite get_llm_unknown; [done| |done].
  unfold fst_result. rewrite K. by destruct key.
Qed.

(** C2. When the lookup of the provider's key yields [None],
    [get_llm_with_avp] raises the [ValueError] that names the provider as
    it was given, and that is all it does: the state is the one the
    lookup left, and the only call made on the vault is the one retrieval
    of the lookup -- nothing is tried again. *)
Theorem missing_credential_hard_stop (provider : string)
    (model : option string) (kwargs : Kw) (s : t B) :
  fst (get_api_key provider s) = Returns None ->
  get_llm_with_avp provider model kwargs s =
    (Raises (ValueError ("No API key found for provider: " +:+ provider))
       : outcome LLM,
     snd (get_api_key provider s))
  /\ trace (snd (get_llm_with_avp provider model kwargs s)) =
       trace s ++ match _client s with
                  | Some _ =>
                      [CallRetrieve (_session_id s) (credential_name provider)]
                  | None => []
                  end.
Proof.
  intros K.
  assert (G : get_llm_with_avp provider model kwargs s =
    (Raises (no_api_key provider) : outcome LLM, snd (get_api_key provider s))).
  { apply get_llm_no_key. unfold fst_result. by rewrite K. }
  split; [done|]. rewrite G. simpl. apply get_trace.
Qed.

(** C10. An empty API key counts as a missing one: when the vault holds
    the empty string under the provider's key, [get_llm_with_avp] raises
    the same [ValueError] as for an absent key, and the log of calls
    grows by the retrieval alone, so no constructor was called.
    [get_api_key] itself always returns, and returns [None] when no
    client is attached, when the retrieval raises and when the stored
    bytes do not decode. *)
Theorem empty_credential_is_missing (provider : string)
    (model : option string) (kwargs : Kw) (s : t B) :
  (forall value b,
     _client s <> None ->
     client_retrieve (_session_id s) (credential_name provider) (_backend s)
       = (Returns value, b) ->
     decode value = Some EmptyString ->
     fst (get_llm_with_avp provider model kwargs s) =
       (Raises (ValueError ("No API key found for provider: " +:+ provider))
          : outcome LLM)
     /\ trace (snd (get_llm_with_avp provider model kwargs s)) =
          trace s ++ [CallRetrieve (_session_id s) (credential_name provider)]
     /\ filter is_construct (trace (snd (get_llm_with_avp provider model kwargs s)))
        = filter is_construct (trace s))
  /\ (exists r s', get_api_key provider s = (Returns r, s'))
  /\ (_client s = None -> fst (get_api_key provider s) = Returns None)
  /\ (forall e b,
        client_retrieve (_session_id s) (credential_name provider) (_backend s)
          = (Raises e, b) ->
        fst (get_api_key provider s) = Returns None)
  /\ (forall value b,
        client_retrieve (_session_id s) (credential_name provider) (_backend s)
          = (Returns value, b) ->
        decode value = None ->
        fst (get_api_key provider s) = Returns None).
Proof.
  split.
  - intros value b C R D.
    assert (K : fst (get_api_key provider s) = Returns (Some EmptyString)).
    { unfold get_api_key. rewrite get_attached by done. rewrite R. simpl.
      by rewrite D. }
    assert (G : get_llm_with_avp provider model kwargs s =
      (Raises (no_api_key provider) : outcome LLM,
       snd (get_api_key provider s))).
    { apply get_llm_no_key. unfold fst_result. by rewrite K. }
    rewrite G. simpl. unfold get_api_key. rewrite get_trace.
    destruct (_client s); [|done].
    split; [done|]. split; [done|].
    rewrite filter_app. simpl. by rewrite app_nil_r.
  - unfold get_api_key. split; [apply get_returns|].
    split; [intros C; by rewrite get_detached|]. split.
    + intros e b R. destruct (_client s) eqn:C.
      * rewrite get_attached by congruence. by rewrite R.
      * by rewrite get_detached.
    + intros value b R D. destruct (_client s) eqn:C.
      * rewrite get_attached by congruence. rewrite R. simpl. by rewrite D.
      * by rewrite get_detached.
Qed.

End FactoryFacts.

(** ** Blocks that leave the provider open *)

Section BlockFacts.
Context {B : Type} `{!AVPClient B} `{!Codec} `{!Lower} `{!Backends B}.

Lemma leaves_open_ret {A} (a : A) : leaves_open (ret a : M (t B) A).
Proof. by intros s C. Qed.

Lemma leaves_open_raise {A} e : leaves_open (raise e : M (t B) A).
Proof. by intros s C. Qed.

Lemma leaves_open_gets {A} (f : t B -> A) : leaves_open (gets f).
Proof. by intros s C. Qed.

Lemma leaves_open_bind {A A'} (m : M (t B) A) (k : A -> M (t B) A') :
  leaves_open m -> (forall a, leaves_open (k a)) -> leaves_open (bind m k).
Proof.
  intros Hm Hk s C. destruct (Hm s C) as [C1 N1]. unfold bind.
  destruct (m s) as [[a|e] s1]; simpl in *; [|done].
  destruct (Hk a s1 C1) as [C2 N2]. split; [done|]. congruence.
Qed.

Lemma leaves_open_try_except {A} (m : M (t B) A) (h : exn -> M (t B) A) :
  leaves_open m -> (forall e, leaves_open (h e)) ->
  leaves_open (try_except m h).
Proof.
  intros Hm Hh s C. destruct (Hm s C) as [C1 N1]. unfold try_except.
  destruct (m s) as [[a|e] s1]; simpl in *; [done|].
  destruct (Hh e s1 C1) as [C2 N2]. split; [done|]. congruence.
Qed.

Lemma leaves_open_client_call {A} meth c (op : B -> outcome A * B) :
  is_close c = false -> leaves_open (client_call meth c op).
Proof.
  intros N s C. rewrite client_call_attached by done. simpl.
  split; [done|]. rewrite closes_app.
  assert (Z : closes [c] = 0).
  { unfold closes. rewrite filter_cons_False; [done|].
    rewrite N. intros []. }
  lia.
Qed.

Lemma leaves_open_get name dflt : leaves_open (get name dflt).
Proof.
  apply leaves_open_try_except; [|intros; apply leaves_open_ret].
  apply leaves_open_bind; [apply leaves_open_gets|]. intros sid.
  apply leaves_open_bind; [by apply leaves_open_client_call|].
  intros value. destruct (decode value);
    [apply leaves_open_ret|apply leaves_open_raise].
Qed.

Lemma leaves_open_set name value lbls : leaves_open (set name value lbls).
Proof.
  apply leaves_open_bind; [apply leaves_open_gets|]. intros sid.
  by apply leaves_open_client_call.
Qed.

Lemma leaves_open_delete name : leaves_open (delete name).
Proof.
  apply leaves_open_bind; [apply leaves_open_gets|]. intros sid.
  by apply leaves_open_client_call.
Qed.

Lemma leaves_open_rotate name value : leaves_open (rotate name value).
Proof.
  apply leaves_open_bind; [apply leaves_open_gets|]. intros sid.
  by apply leaves_open_client_call.
Qed.

End BlockFacts.

(** ** The audit callback *)

Import Heap AVPCredentialCallback.

Section HeapFacts.
Implicit Types (h ext : list object) (v : value) (l : loc).

Lemma lookup_grown h ext l o :
  h !! l = Some o -> (h ++ ext) !! l = Some o.
Proof. apply lookup_app_l_Some. Qed.

Lemma lookup_fresh h o : (h ++ [o]) !! length h = Some o.
Proof. by rewrite list_lookup_middle. Qed.

Lemma dict_fields_grown h ext v d :
  dict_fields h v = Some d -> dict_fields (h ++ ext) v = Some d.
Proof.
  destruct v as [| | | |l]; try done. simpl.
  destruct (h !! l) as [[|d']|] eqn:E; try done.
  intros [= <-]. by rewrite (lookup_grown _ _ _ _ E).
Qed.

Lemma list_items_grown h ext v items :
  list_items h v = Some items -> list_items (h ++ ext) v = Some items.
Proof.
  destruct v as [| | | |l]; try done. simpl.
  destruct (h !! l) as [[items'|]|] eqn:E; try done.
  intros [= <-]. by rewrite (lookup_grown _ _ _ _ E).
Qed.

(** Writing a list object leaves every dict where it was. *)
Lemma dict_fields_insert_list h l items v d :
  (exists items0, h !! l = Some (OList items0)) ->
  dict_fields h v = Some d ->
  dict_fields (<[l := OList items]> h) v = Some d.
Proof.
  intros [items0 L]. destruct v as [| | | |l']; try done. simpl.
  destruct (decide (l = l')) as [<-|N].
  - by rewrite L.
  - by rewrite list_lookup_insert_ne.
Qed.

Lemma mapM_dict_fields_grown h ext vs ds :
  mapM (dict_fields h) vs = Some ds ->
  mapM (dict_fields (h ++ ext)) vs = Some ds.
Proof.
  rewrite !mapM_Some. intros F.
  eapply Forall2_impl; [exact F|]. intros. by apply dict_fields_grown.
Qed.

Lemma mapM_dict_fields_insert_list h l items vs ds :
  (exists items0, h !! l = Some (OList items0)) ->
  mapM (dict_fields h) vs = Some ds ->
  mapM (dict_fields (<[l := OList items]> h)) vs = Some ds.
Proof.
  intros L. rewrite !mapM_Some. intros F.
  eapply Forall2_impl; [exact F|]. intros.
  by apply dict_fields_insert_list.
Qed.

End HeapFacts.

Section SinkFacts.
Implicit Types (s : AVPCredentialCallback.t) (v : value) (l e : loc).

Lemma audit_entries_Some s es :
  audit_entries s = Some es <->
  exists items, heap s !! _audit_log s = Some (OList items)
                /\ mapM (dict_fields (heap s)) items = Some es.
Proof.
  unfold audit_entries, read_entries, list_items. split.
  - destruct (heap s !! _audit_log s) as [[items|]|]; try done. simpl. eauto.
  - intros (items & -> & F). done.
Qed.

Lemma audit_entries_log_is_list s es :
  audit_entries s = Some es -> log_is_list s.
Proof. rewrite audit_entries_Some. intros (items & L & _). by exists items. Qed.

Lemma grown_refl s : grown s s.
Proof. split; [done|]. exists []. by rewrite app_nil_r. Qed.

Lemma grown_trans s1 s2 s3 : grown s1 s2 -> grown s2 s3 -> grown s1 s3.
Proof.
  intros [A1 [x1 H1]] [A2 [x2 H2]]. split; [congruence|].
  exists (x1 ++ x2). by rewrite H2, H1, app_assoc.
Qed.

Lemma grown_recorded s1 s2 s3 e entry :
  log_is_list s1 -> grown s1 s2 -> recorded e entry s2 s3 ->
  recorded e entry s1 s3.
Proof.
  intros [items0 L0] [A1 [x1 H1]] (A2 & x2 & items & L & E & H).
  split; [congruence|]. exists (x1 ++ x2), items0.
  rewrite A1, H1 in *. rewrite (lookup_grown _ _ _ _ L0) in L.
  injection L as <-. by rewrite app_assoc.
Qed.

Lemma grown_audit_entries s s' es :
  grown s s' -> audit_entries s = Some es -> audit_entries s' = Some es.
Proof.
  intros [A [ext H]]. rewrite !audit_entries_Some.
  intros (items & L & F). exists items. rewrite A, H. split.
  - by apply lookup_grown.
  - by apply mapM_dict_fields_grown.
Qed.

Lemma recorded_audit_entries s s' e entry es :
  recorded e entry s s' -> audit_entries s = Some es ->
  audit_entries s' = Some (es ++ [entry]).
Proof.
  intros (A & ext & items & L & E & H). rewrite !audit_entries_Some.
  intros (items' & L' & F). rewrite L in L'. injection L' as <-.
  assert (La : (heap s ++ ext) !! _audit_log s = Some (OList items))
    by by apply lookup_grown.
  exists (items ++ [VRef e]). rewrite A, H. split.
  - apply list_lookup_insert_eq. by eapply lookup_lt_Some.
  - apply mapM_Some, Forall2_app.
    + apply mapM_Some, mapM_dict_fields_insert_list; [eauto|].
      by apply mapM_dict_fields_grown.
    + constructor; [|constructor]. simpl.
      rewrite list_lookup_insert_ne by congruence. by rewrite E.
Qed.

Lemma grown_keeps_objects s s' l o :
  grown s s' -> heap s !! l = Some o -> heap s' !! l = Some o.
Proof. intros [_ [ext ->]]. apply lookup_grown. Qed.

Lemma recorded_keeps_dicts s s' e entry l d :
  recorded e entry s s' ->
  heap s !! l = Some (ODict d) -> heap s' !! l = Some (ODict d).
Proof.
  intros (A & ext & items & L & E & ->) D.
  rewrite list_lookup_insert_ne by congruence. by apply lookup_grown.
Qed.

Lemma new_grown o s :
  new o s =
    (Returns (VRef (length (heap s))),
     mk (heap s ++ [o]) (_audit_log s) (_current_run s)).
Proof. done. Qed.

(** [_log] on a state grown from one where the sink's list is there:
    it returns, having allocated the entry and appended it. *)
Lemma log_recorded now event metadata s :
  log_is_list s ->
  exists s',
    _log now event metadata s = (Returns tt, s')
    /\ _current_run s' = _current_run s
    /\ recorded (length (heap s))
         (entry_fields now event (_current_run s)
            (truthy (heap s) metadata) metadata) s s'.
Proof.
  intros [items L]. unfold _log, append_entry, lift. py_unfold.
  rewrite new_grown. simpl. rewrite (lookup_grown _ _ _ _ L).
  eexists. split; [done|]. split; [done|]. split; [done|].
  eexists _, items. split; [done|]. split; [apply lookup_fresh|]. done.
Qed.

Lemma entry_fields_stamp now event run has_metadata metadata :
  entry_stamp (entry_fields now event run has_metadata metadata)
  = Some (event, now).
Proof. unfold entry_stamp, entry_fields. by destruct has_metadata. Qed.

End SinkFacts.

#[local] Arguments _log : simpl never.

Section HandlerFacts.
Implicit Types (s : AVPCredentialCallback.t) (v : value) (l e : loc).

Lemma grown_alloc s ext run :
  grown s (mk (heap s ++ ext) (_audit_log s) run).
Proof. split; [done|]. by exists ext. Qed.

Ltac solve_grown :=
  simpl; rewrite <- ?app_assoc;
  first [apply grown_alloc | apply (grown_alloc _ [_])].

Lemma grown_log_is_list s s' : grown s s' -> log_is_list s -> log_is_list s'.
Proof.
  intros [A [ext H]] [items L]. exists items. rewrite A, H.
  by apply lookup_grown.
Qed.

Lemma recorded_set_run e entry s s' run :
  recorded e entry s s' ->
  recorded e entry s (mk (heap s') (_audit_log s') run).
Proof. done. Qed.

(** [_log] at the end of a handler: [s1] is what the handler made of
    [s0] before logging. *)
Lemma log_after_growth now event metadata s0 s1 :
  log_is_list s0 -> grown s0 s1 ->
  exists s' e entry,
    _log now event metadata s1 = (Returns tt, s')
    /\ recorded e entry s0 s'
    /\ entry = entry_fields now event (_current_run s1)
                 (truthy (heap s1) metadata) metadata
    /\ heap s1 !! e = None
    /\ _current_run s' = _current_run s1.
Proof.
  intros L G.
  destruct (log_recorded now event metadata s1) as (s' & R & C & Rec);
    [by eapply grown_log_is_list|].
  exists s', (length (heap s1)). eexists. split; [done|].
  split; [by eapply grown_recorded|]. split; [done|].
  split; [|done]. by apply lookup_ge_None.
Qed.

Lemma on_llm_error_handled now error s :
  log_is_list s ->
  fst (on_llm_error now error s) = Returns tt
  /\ handled "llm_error" now s (on_llm_error now error s).
Proof.
  intros L. unfold handled, on_llm_error, set_current_run. py_unfold.
  rewrite new_grown.
  edestruct log_after_growth as (s' & e & entry & -> & R & -> & _);
    [exact L|apply (grown_alloc s [_])|].
  simpl. split; [done|]. eexists _, _. split; [exact R|].
  apply entry_fields_stamp.
Qed.

(** The last step of a handler that got as far as [_log]. *)
Ltac log_step L :=
  edestruct log_after_growth as (? & ? & ? & -> & ?R & -> & _);
    [exact L|solve_grown|];
  simpl; eexists _, _; split; [eassumption|apply entry_fields_stamp].

Lemma on_llm_end_handled now response s :
  log_is_list s ->
  handled "llm_end" now s (on_llm_end now response s).
Proof.
  intros L.
  unfold handled, on_llm_end, set_current_run, lift, new, alloc. py_unfold.
  simpl. destruct (truthy _ (llm_output response)); simpl.
  - destruct (dict_get _ _ _ _) as [usage|err]; simpl.
    + log_step L.
    + solve_grown.
  - log_step L.
Qed.

Lemma on_llm_start_handled now serialized prompts run_id s :
  log_is_list s ->
  handled "llm_start" now s (on_llm_start now serialized prompts run_id s).
Proof.
  intros L.
  unfold handled, on_llm_start, set_current_run, lift, new, alloc. py_unfold.
  simpl. destruct (dict_get _ _ _ _) as [model|err]; simpl;
    [|solve_grown].
  destruct (truthy _ _); simpl.
  - destruct (subscript_last _ _) as [provider|err]; simpl.
    + log_step L.
    + solve_grown.
  - log_step L.
Qed.

End HandlerFacts.

Section LogFacts.
Implicit Types (s : AVPCredentialCallback.t) (v : value) (l e : loc).
Implicit Types (es : list (gmap string value)) (ms : list method).

Lemma init_audit_entries (h : list object) :
  audit_entries (__init__ h) = Some [].
Proof.
  unfold audit_entries, read_entries, __init__. simpl.
  by rewrite lookup_fresh.
Qed.

(** [get_audit_log] allocates a new list with the items of the sink's. *)
Lemma get_audit_log_copy s items :
  heap s !! _audit_log s = Some (OList items) ->
  get_audit_log s =
    (Returns (VRef (length (heap s))),
     mk (heap s ++ [OList items]) (_audit_log s) (_current_run s))
  /\ length (heap s) <> _audit_log s.
Proof.
  intros L. unfold get_audit_log. rewrite L. split; [done|].
  apply lookup_lt_Some in L. lia.
Qed.

Lemma get_audit_log_reads s es :
  audit_entries s = Some es ->
  exists snap s',
    get_audit_log s = (Returns snap, s')
    /\ grown s s'
    /\ read_entries (heap s') snap = Some es.
Proof.
  intros E. pose proof E as E'.
  apply audit_entries_Some in E as (items & L & F).
  destruct (get_audit_log_copy s items L) as [-> _].
  eexists _, _. split; [done|]. split; [apply (grown_alloc s [_])|].
  unfold read_entries. simpl. rewrite lookup_fresh. simpl.
  by apply mapM_dict_fields_grown.
Qed.

Lemma clear_audit_log_empties s :
  exists s1,
    clear_audit_log s = (Returns tt, s1)
    /\ audit_entries s1 = Some []
    /\ (forall l o, heap s !! l = Some o -> heap s1 !! l = Some o).
Proof.
  eexists. split; [done|]. split.
  - unfold audit_entries, read_entries. simpl. by rewrite lookup_fresh.
  - intros l o. apply lookup_grown.
Qed.

Lemma handled_step event now s rs es :
  handled event now s rs -> audit_entries s = Some es ->
  (forall l d, heap s !! l = Some (ODict d) ->
               heap (snd rs) !! l = Some (ODict d))
  /\ exists new_entries,
       audit_entries (snd rs) = Some (es ++ new_entries)
       /\ entry_stamp <$> new_entries =
            Some <$> (if returned (fst rs) then [(event, now)] else []).
Proof.
  unfold handled. intros H E. destruct (fst rs) as [[]|err]; simpl.
  - destruct H as (e & entry & R & St). split.
    + intros l d. by apply (recorded_keeps_dicts _ _ _ _ _ _ R).
    + exists [entry]. split; [by eapply recorded_audit_entries|].
      simpl. by rewrite St.
  - split.
    + intros l d. by apply grown_keeps_objects.
    + exists []. rewrite app_nil_r. split; [|done].
      by eapply grown_audit_entries.
Qed.

Lemma recorded_stamps_single m (r : outcome value) :
  recorded_stamps [m] [r] =
    if returned r then option_list (stamp m) else [].
Proof.
  unfold recorded_stamps. simpl. destruct (returned r); [|done].
  by destruct (stamp m).
Qed.

Lemma then_none_state {S A} (m : M S A) (s : S) :
  snd ((m ;;; ret VNone) s) = snd (m s).
Proof. py_unfold. by destruct (m s) as [[a|err] s']. Qed.

Lemma then_none_returned {S A} (m : M S A) (s : S) :
  returned (fst ((m ;;; ret VNone) s)) = returned (fst (m s)).
Proof. py_unfold. by destruct (m s) as [[a|err] s']. Qed.

(** One call of any method but [clear_audit_log]: the dicts on the heap
    stay as they are and the sink's entries are the old ones followed by
    what the call recorded. *)
Lemma invoke_step m s es :
  audit_entries s = Some es ->
  m <> ClearAuditLog ->
  (forall l d, heap s !! l = Some (ODict d) ->
               heap (snd (invoke m s)) !! l = Some (ODict d))
  /\ exists new_entries,
       audit_entries (snd (invoke m s)) = Some (es ++ new_entries)
       /\ entry_stamp <$> new_entries =
            Some <$> recorded_stamps [m] [fst (invoke m s)].
Proof.
  intros E N. pose proof (audit_entries_log_is_list _ _ E) as L.
  rewrite recorded_stamps_single.
  destruct m as [now ser pr rid|now resp|now err| |]; simpl;
    rewrite ?then_none_state, ?then_none_returned.
  - eapply handled_step; [|done]. by apply on_llm_start_handled.
  - eapply handled_step; [|done]. by apply on_llm_end_handled.
  - eapply handled_step; [|done]. by apply on_llm_error_handled.
  - destruct (get_audit_log_reads s es E) as (snap & s' & -> & G & _).
    simpl. split.
    + intros l d. by apply grown_keeps_objects.
    + exists []. rewrite app_nil_r. split; [|done].
      by eapply grown_audit_entries.
  - done.
Qed.

End LogFacts.

Section SequenceFacts.
Implicit Types (s : AVPCredentialCallback.t) (v : value) (l e : loc).
Implicit Types (es : list (gmap string value)) (ms : list method).

Lemma invoke_all_cons m ms s :
  invoke_all (m :: ms) s =
    (fst (invoke m s) :: fst (invoke_all ms (snd (invoke m s))),
     snd (invoke_all ms (snd (invoke m s)))).
Proof.
  simpl. destruct (invoke m s) as [r s1]. simpl.
  by destruct (invoke_all ms s1).
Qed.


(** Every method keeps the sink readable and the dicts as they are. *)
Lemma invoke_invariant m s es :
  audit_entries s = Some es ->
  (exists es', audit_entries (snd (invoke m s)) = Some es')
  /\ (forall l d, heap s !! l = Some (ODict d) ->
                  heap (snd (invoke m s)) !! l = Some (ODict d)).
Proof.
  intros E.
  assert (m = ClearAuditLog \/ m <> ClearAuditLog) as [->|N]
    by (destruct m; auto).
  - unfold invoke. rewrite then_none_state.
    destruct (clear_audit_log_empties s) as (s1 & -> & A & K).
    split; [eauto|]. intros l d. apply K.
  - destruct (invoke_step m s es E N) as [K (ne & A & _)]. eauto.
Qed.




End SequenceFacts.

Section SnapshotFacts.
Implicit Types (s : AVPCredentialCallback.t) (v : value) (l e : loc).
Implicit Types (es : list (gmap string value)).

Lemma list_assign_fresh (h : list object) items items' :
  list_assign (length h) items' (h ++ [OList items]) = h ++ [OList items'].
Proof.
  unfold list_assign. rewrite lookup_fresh.
  rewrite insert_app_r_alt by lia. by rewrite Nat.sub_diag.
Qed.

(** C6, as the code has it.  [get_audit_log] returns a new list object,
    not the sink's own: whatever a caller then assigns to that list --
    any appending, removing, replacing or reordering of its items -- the
    sink's list holds the same references as before, the sink reads the
    same entries, and the next [get_audit_log] returns them again.  The
    entries themselves are not copied. *)
Theorem snapshot_list_is_private (s : AVPCredentialCallback.t)
    (es : list (gmap string value)) (items' : list value) :
  audit_entries s = Some es ->
  exists l s1,
    get_audit_log s = (Returns (VRef l), s1)
    /\ l <> _audit_log s1
    /\ read_entries (heap s1) (VRef l) = Some es
    /\ list_items (heap (caller_list_assign l items' s1)) (VRef l)
       = Some items'
    /\ list_items (heap (caller_list_assign l items' s1))
         (VRef (_audit_log (caller_list_assign l items' s1)))
       = list_items (heap s) (VRef (_audit_log s))
    /\ audit_entries (caller_list_assign l items' s1) = Some es
    /\ exists snap' s2,
         get_audit_log (caller_list_assign l items' s1) = (Returns snap', s2)
         /\ read_entries (heap s2) snap' = Some es.
Proof.
  intros E. pose proof E as E'.
  apply audit_entries_Some in E' as (items & L & F).
  destruct (get_audit_log_copy s items L) as [G N].
  destruct (get_audit_log_reads s es E) as (snap & s1 & G' & _ & R).
  rewrite G in G'. injection G' as <- <-.
  exists (length (heap s)), (mk (heap s ++ [OList items]) (_audit_log s)
                               (_current_run s)).
  split; [done|]. split; [done|]. split; [done|].
  unfold caller_list_assign. simpl. rewrite list_assign_fresh.
  assert (Gr : grown s (mk (heap s ++ [OList items']) (_audit_log s)
                          (_current_run s))) by apply (grown_alloc s [_]).
  pose proof (grown_audit_entries _ _ _ Gr E) as E2.
  split; [by rewrite lookup_fresh|]. split.
  - by rewrite (lookup_grown _ _ _ _ L), L.
  - split; [done|].
    destruct (get_audit_log_reads _ _ E2) as (snap' & s2 & G2 & _ & R2).
    eauto.
Qed.

End SnapshotFacts.

Section StartFacts.
Implicit Types (s : AVPCredentialCallback.t) (v : value) (l e : loc).
Implicit Types (h ext : list object) (es : list (gmap string value)).

Lemma truthy_grown h ext v :
  allocated h v -> truthy (h ++ ext) v = truthy h v.
Proof.
  intros A. destruct v as [| | | |l]; try done. simpl.
  destruct (A l eq_refl) as [o L]. by rewrite (lookup_grown _ _ _ _ L), L.
Qed.

Lemma dict_get_grown h ext v d key dflt :
  dict_fields h v = Some d ->
  dict_get (h ++ ext) v key dflt = Returns (default dflt (d !! key)).
Proof.
  destruct v as [| | | |l]; try done. simpl.
  destruct (h !! l) as [[|d']|] eqn:L; try done.
  intros [= <-]. by rewrite (lookup_grown _ _ _ _ L).
Qed.

Lemma last_char_nonempty c str : is_Some (last_char (String c str)).
Proof.
  revert c. induction str as [|c' str IH]; intros c; [by eexists|].
  apply (IH c').
Qed.

Lemma subscript_last_list h ext v items :
  list_items h v = Some items ->
  truthy h v = true ->
  exists x, last items = Some x /\ subscript_last (h ++ ext) v = Returns x.
Proof.
  destruct v as [| | | |l]; try done. simpl.
  destruct (h !! l) as [[items'|]|] eqn:L; try done.
  intros [= <-] T. rewrite (lookup_grown _ _ _ _ L).
  destruct items' as [|x0 items'] using rev_ind; [done|].
  exists x0. by rewrite last_snoc.
Qed.

Lemma subscript_last_str h str :
  truthy h (VStr str) = true ->
  exists c, subscript_last h (VStr str) = Returns (VStr (String c EmptyString)).
Proof.
  destruct str as [|c0 str]; [done|]. intros _. simpl.
  destruct (last_char_nonempty c0 str) as [c E]. simpl in E.
  exists c. by rewrite E.
Qed.

(** [_log] with a non-empty metadata dict freshly allocated at the end
    of a heap grown from that of [s0]. *)
Lemma log_metadata now event s0 es h md run :
  audit_entries s0 = Some es ->
  (exists ext, h = heap s0 ++ ext) ->
  md <> ∅ ->
  exists s',
    _log now event (VRef (length h))
      (mk (h ++ [ODict md]) (_audit_log s0) run) = (Returns tt, s')
    /\ audit_entries s' =
         Some (es ++ [<["metadata" := VRef (length h)]>
                      (<["timestamp" := VStr now]>
                      (<["event" := VStr event]>
                      (<["run_id" := from_option VStr VNone run]> ∅)))])
    /\ heap s' !! length h = Some (ODict md).
Proof.
  intros E [ext ->] N.
  pose proof (audit_entries_log_is_list _ _ E) as L.
  set (s1 := mk ((heap s0 ++ ext) ++ [ODict md]) (_audit_log s0) run).
  assert (G : grown s0 s1).
  { subst s1. rewrite <- app_assoc. apply grown_alloc. }
  destruct (log_recorded now event (VRef (length (heap s0 ++ ext))) s1)
    as (s' & R & _ & Rec); [by eapply grown_log_is_list|].
  exists s'. split; [done|].
  assert (F : heap s1 !! length (heap s0 ++ ext) = Some (ODict md))
    by apply lookup_fresh.
  split.
  - erewrite recorded_audit_entries;
      [|eapply grown_recorded; [exact L|exact G|exact Rec]|exact E].
    simpl. rewrite lookup_fresh.
    by rewrite bool_decide_eq_false_2.
  - by eapply recorded_keeps_dicts.
Qed.

(** C9, as the code has it.  When ["kwargs"], if present, is a dict and
    ["id"], if present, is a list or a string or is falsy,
    [on_llm_start] returns and appends exactly one entry: event
    [llm_start], the time of the call, the run id, and a metadata dict
    with the provider, the model and the number of prompts.  The model
    is ["unknown"] when ["kwargs"] or its ["model"] key is missing; the
    provider is ["unknown"] when ["id"] is missing or an empty list, and
    the last item of the list otherwise. *)
Theorem on_llm_start_records (now : string) (serialized : gmap string value)
    (prompts : list string) (run_id : option string)
    (s : AVPCredentialCallback.t) (es : list (gmap string value)) :
  audit_entries s = Some es ->
  well_shaped (heap s) serialized ->
  exists s' m model provider,
    on_llm_start now serialized prompts run_id s = (Returns tt, s')
    /\ audit_entries s' =
         Some (es ++ [<["metadata" := VRef m]>
                      (<["timestamp" := VStr now]>
                      (<["event" := VStr "llm_start"]>
                      (<["run_id" := from_option VStr VNone
                           (if truthy_str run_id then run_id else None)]>
                       ∅)))])
    /\ heap s' !! m =
         Some (ODict (<["provider" := provider]>
                     (<["model" := model]>
                     (<["prompt_count" := VInt (Z.of_nat (length prompts))]>
                      ∅))))
    /\ (serialized !! "kwargs" = None -> model = VStr "unknown")
    /\ (forall kw d, serialized !! "kwargs" = Some kw ->
          dict_fields (heap s) kw = Some d ->
          model = default (VStr "unknown") (d !! "model"))
    /\ (serialized !! "id" = None -> provider = VStr "unknown")
    /\ (forall id items, serialized !! "id" = Some id ->
          list_items (heap s) id = Some items ->
          provider = default (VStr "unknown") (last items)).
Proof.
  intros E [K I].
  (* the model *)
  assert (exists model,
    dict_get (heap s ++ [ODict ∅])
      (default (VRef (length (heap s))) (serialized !! "kwargs"))
      "model" (VStr "unknown") = Returns model
    /\ (serialized !! "kwargs" = None -> model = VStr "unknown")
    /\ (forall kw d, serialized !! "kwargs" = Some kw ->
          dict_fields (heap s) kw = Some d ->
          model = default (VStr "unknown") (d !! "model")))
    as (model & Dm & M1 & M2).
  { destruct (serialized !! "kwargs") as [kw|] eqn:Kw.
    - destruct (K kw eq_refl) as [d D]. eexists. split.
      + simpl. by apply dict_get_grown.
      + split; [done|]. intros kw' d' [= <-] D'. congruence.
    - eexists. split.
      + simpl. by rewrite lookup_fresh.
      + split; [done|]. done. }
  unfold on_llm_start, set_current_run, lift, new, alloc. py_unfold.
  simpl. rewrite Dm. simpl.
  assert (A : allocated (heap s) (default VNone (serialized !! "id"))).
  { destruct (serialized !! "id") as [id|] eqn:Id; [|done].
    by destruct (I id eq_refl). }
  rewrite truthy_grown by done.
  destruct (truthy (heap s) (default VNone (serialized !! "id"))) eqn:T.
  - (* a truthy id: a non-empty list or string *)
    destruct (serialized !! "id") as [id|] eqn:Id; [|done]. simpl in *.
    destruct (I id eq_refl) as [_ [[items Li]|[str ->]]]; [done| |].
    + destruct (subscript_last_list (heap s)
                  ([ODict ∅] ++ [OList [VStr "unknown"]]) id items Li T)
        as (x & La & Su).
      rewrite app_assoc in Su. rewrite Su. simpl.
      edestruct (log_metadata now "llm_start" s es) as (s' & Lg & Ae & Hm);
        [exact E| |apply insert_non_empty|].
      { exists ([ODict ∅] ++ [OList [VStr "unknown"]]).
        by rewrite app_assoc. }
      rewrite Lg. eexists _, _, model, x.
      split; [done|]. split; [exact Ae|]. split; [exact Hm|].
      split; [done|]. split; [done|]. split; [done|].
      intros id' items' [= <-] Li'. rewrite Li in Li'.
      injection Li' as <-. by rewrite La.
    + destruct (subscript_last_str
                  ((heap s ++ [ODict ∅]) ++ [OList [VStr "unknown"]]) str T)
        as (c & Su).
      rewrite Su. simpl.
      edestruct (log_metadata now "llm_start" s es) as (s' & Lg & Ae & Hm);
        [exact E| |apply insert_non_empty|].
      { exists ([ODict ∅] ++ [OList [VStr "unknown"]]).
        by rewrite app_assoc. }
      rewrite Lg. eexists _, _, model, _.
      split; [done|]. split; [exact Ae|]. split; [exact Hm|].
      split; [done|]. split; [done|]. split; [done|].
      intros id' items' [= <-] Li'. done.
  - (* no id, or a falsy one *)
    simpl.
    edestruct (log_metadata now "llm_start" s es) as (s' & Lg & Ae & Hm);
      [exact E| |apply insert_non_empty|].
    { by exists [ODict ∅]. }
    rewrite Lg. eexists _, _, model, (VStr "unknown").
    split; [done|]. split; [exact Ae|]. split; [exact Hm|].
    split; [done|]. split; [done|]. split; [done|].
    intros id items Id Li. rewrite Id in T. simpl in T.
    destruct id as [| | | |l]; try done. simpl in *.
    destruct (heap s !! l) as [[its|]|]; try done.
    injection Li as <-. by destruct its.
Qed.

End StartFacts.

(** ** The code on the reference collaborators *)

Import Reference AVPCredentialProvider.

(** The in-memory vault keeps what it is given. *)
#[export] Instance memory_client_stores : StoresSecrets vault.
Proof.
  split.
  - intros sid name value lbls b b'. simpl.
    destruct (is_open b); [|done]. intros [= <-]. simpl.
    by rewrite lookup_insert_eq.
  - intros sid name deleted b b'. simpl.
    destruct (is_open b); [|done]. intros [= <- <-]. simpl.
    rewrite lookup_delete_eq. eauto.
Qed.

Lemma failing_block_leaves_open : leaves_open failing_block.
Proof.
  apply leaves_open_bind; [apply leaves_open_set|].
  intros _. apply leaves_open_raise.
Qed.

(** The cases of [tests/test_credential_provider.py]. *)

Example test_memory_backend :
  let s0 := connected empty_vault in
  let s1 := snd (set "test_key" "test_value" None s0) in
  let s2 := snd (delete "test_key" s1) in
  fst (get "test_key" None s1) = Returns (Some "test_value")
  /\ fst (delete "test_key" s1) = Returns true
  /\ fst (get "test_key" None s2) = Returns None.
Proof. vm_compute. done. Qed.

Example test_get_default :
  fst (get "nonexistent" (Some "default_value") (connected empty_vault))
  = Returns (Some "default_value").
Proof. vm_compute. done. Qed.

Example test_get_api_key :
  let s := connected (vault_of [("anthropic_api_key", "sk-ant-test");
                                ("openai_api_key", "sk-test")]) in
  fst (get_api_key "anthropic" s) = Returns (Some "sk-ant-test")
  /\ fst (get_api_key "openai" s) = Returns (Some "sk-test")
  /\ fst (get_api_key "unknown" s) = Returns None.
Proof. vm_compute. done. Qed.

Example test_rotate :
  let s1 := snd (set "rotate_key" "v1" None (connected empty_vault)) in
  let s2 := snd (rotate "rotate_key" "v2" s1) in
  fst (get "rotate_key" None s1) = Returns (Some "v1")
  /\ fst (get "rotate_key" None s2) = Returns (Some "v2").
Proof. vm_compute. done. Qed.

Example credential_name_mixed_case :
  credential_name "OpenAI" = "openai_api_key"
  /\ credential_name "Azure-OpenAI" = "azure-openai_api_key".
Proof. vm_compute. done. Qed.

Example get_llm_anthropic_default_model :
  fst (get_llm_with_avp "Anthropic" None tt
         (connected (vault_of [("anthropic_api_key", "sk-ant-test")])))
  = Returns (ChatAnthropic, "sk-ant-test", "claude-3-haiku-20240307").
Proof. vm_compute. done. Qed.

Example get_llm_package_missing :
  fst (get_llm_with_avp (Sdk0 := bare_sdk) "mistral" (Some "mistral-large") tt
         (connected (vault_of [("mistral_api_key", "sk-m")])))
  = Raises (ImportError
      "Install langchain-mistralai: pip install langchain-mistralai").
Proof. reflexivity. Qed.

Example get_after_close :
  fst (get "test_key" (Some "fallback")
         (snd (close (connected (vault_of [("test_key", "test_value")])))))
  = Returns (Some "fallback").
Proof. reflexivity. Qed.

Example test_context_manager :
  let block := set "ctx_key" "ctx_value" None ;;;
               (value <- get "ctx_key" None ;;
                if bool_decide (value = Some "ctx_value") then ret tt
                else raise (ExternalError "AssertionError" "ctx_key")) in
  fst (with_ block (connected empty_vault)) = Returns tt
  /\ trace (snd (with_ block (connected empty_vault)))
     = [CallAuthenticate "langchain";
        CallStore (Some "session:langchain") "ctx_key"
          (encode "ctx_value") None;
        CallRetrieve (Some "session:langchain") "ctx_key";
        CallClose].
Proof. split; reflexivity. Qed.

Ltac not_in_list :=
  let H := fresh in
  intros H;
  repeat (apply elem_of_cons in H as [H|H]; [discriminate H|]);
  by apply elem_of_nil in H.

(** C1 fails as stated: with no key in the vault, an unknown provider
    gets the no-API-key error, not the unknown-provider one. *)
Lemma unknown_provider_without_key :
  (lower "unknown-provider" ∉ ["anthropic"; "openai"; "cohere"; "mistral"])
  /\ fst (get_llm_with_avp "unknown-provider" None tt (connected empty_vault))
     = Raises (ValueError "No API key found for provider: unknown-provider")
  /\ fst (get_llm_with_avp "unknown-provider" None tt (connected empty_vault))
     <> Raises (ValueError ("Unknown provider: unknown-provider. "
                  +:+ "Supported: anthropic, openai, cohere, mistral")).
Proof.
  split; [vm_compute; not_in_list|]. split; [reflexivity|].
  vm_compute. discriminate.
Qed.

Lemma unknown_provider_rejected_witness :
  (lower "Gemini" ∉ ["anthropic"; "openai"; "cohere"; "mistral"])
  /\ fst (get_api_key "Gemini"
            (connected (vault_of [("gemini_api_key", "sk-g")])))
     = Returns (Some "sk-g")
  /\ fst (get_llm_with_avp "Gemini" None tt
            (connected (vault_of [("gemini_api_key", "sk-g")])))
     = Raises (ValueError
         "Unknown provider: gemini. Supported: anthropic, openai, cohere, mistral").
Proof.
  assert (N : lower "Gemini" ∉ ["anthropic"; "openai"; "cohere"; "mistral"])
    by (vm_compute; not_in_list).
  split; [exact N|]. split; [reflexivity|].
  refine (proj1 (unknown_provider_rejected "Gemini" None tt
                   (connected (vault_of [("gemini_api_key", "sk-g")])) "sk-g"
                   N _ _)).
  - reflexivity.
  - discriminate.
Defined.

Lemma missing_credential_hard_stop_witness :
  fst (get_api_key "anthropic" (connected empty_vault)) = Returns None
  /\ fst (get_llm_with_avp "anthropic" None tt (connected empty_vault))
     = Raises (ValueError "No API key found for provider: anthropic")
  /\ trace (snd (get_llm_with_avp "anthropic" None tt (connected empty_vault)))
     = [CallAuthenticate "langchain";
        CallRetrieve (Some "session:langchain") "anthropic_api_key"].
Proof.
  split; [reflexivity|].
  destruct (missing_credential_hard_stop "anthropic" None tt
              (connected empty_vault)) as [G T];
    [reflexivity|].
  split; [by rewrite G|]. rewrite T. reflexivity.
Defined.

Lemma get_never_raises_witness :
  fst (get "nonexistent" (Some "default_value") (connected empty_vault))
  = Returns (Some "default_value").
Proof.
  destruct (get_never_raises "nonexistent" (Some "default_value")
              (connected empty_vault)) as (_ & _ & R & _).
  eapply R. reflexivity.
Defined.

Lemma credential_name_total_witness :
  credential_name "OpenAI" = "openai_api_key"
  /\ key_mapping !! "huggingface" = Some "huggingface_api_key".
Proof.
  split.
  - destruct (credential_name_total (B := vault) "OpenAI") as (N & _).
    rewrite N. reflexivity.
  - destruct (credential_name_total (B := vault) "HuggingFace")
      as (_ & [T _] & _).
    apply T. simpl. set_solver.
Defined.

Lemma get_after_set_and_delete_witness :
  fst (get "test_key" None
         (snd (set "test_key" "test_value" None (connected empty_vault))))
  = Returns (Some "test_value")
  /\ fst (get "test_key" (Some "gone")
            (snd (delete "test_key"
                    (connected (vault_of [("test_key", "test_value")])))))
     = Returns (Some "gone").
Proof.
  split.
  - apply (proj1 (get_after_set_and_delete "test_key" None
                    (connected empty_vault)) "test_value" None);
      reflexivity.
  - apply (proj2 (get_after_set_and_delete "test_key" (Some "gone")
                    (connected (vault_of [("test_key", "test_value")])))
             true).
    reflexivity.
Defined.

Lemma context_manager_closes_once_witness :
  closes (trace (snd (with_ failing_block (connected empty_vault)))) = 1
  /\ fst (with_ failing_block (connected empty_vault))
     = Raises (ValueError "boom").
Proof.
  destruct (context_manager_closes_once None None "langchain"
              (Some empty_vault) failing_block (connected empty_vault))
    as (C & _ & _ & P).
  - reflexivity.
  - exact failing_block_leaves_open.
  - split; [exact C|].
    destruct (P (ValueError "boom")) as (_ & Q & _); [reflexivity|].
    apply Q. reflexivity.
Defined.

(** C8 fails as stated.  [close] does not detach the client, so when the
    block closes the provider itself, [__exit__] closes the client a
    second time.  And [__exit__] does not guard its call to [close]: on
    a client whose [close] raises, the exception of the block is
    replaced by the one of [close]. *)
Lemma context_manager_closes_twice :
  __init__ None None "langchain" (Some empty_vault)
  = (Returns tt, Some (connected empty_vault))
  /\ trace (snd (with_ closing_block (connected empty_vault)))
     = [CallAuthenticate "langchain"; CallClose; CallClose]
  /\ closes (trace (snd (with_ closing_block (connected empty_vault)))) = 2
  /\ __init__ (AVPClient0 := stuck_client) None None "langchain"
       (Some empty_vault)
     = (Returns tt, Some (connected empty_vault))
  /\ fst (raising_block (connected empty_vault))
     = Raises (ValueError "boom")
  /\ fst (with_ (AVPClient0 := stuck_client) raising_block
            (connected empty_vault))
     = Raises (ExternalError "AVPError" "close failed").
Proof. repeat split. Qed.

Lemma empty_credential_is_missing_witness :
  fst (get_llm_with_avp "openai" None tt
         (connected (vault_of [("openai_api_key", EmptyString)])))
  = Raises (ValueError "No API key found for provider: openai")
  /\ fst (get_api_key "openai" (connected (vault_of [("openai_api_key", EmptyString)])))
     = Returns (Some EmptyString).
Proof.
  split; [|reflexivity].
  destruct (empty_credential_is_missing "openai" None tt
              (connected (vault_of [("openai_api_key", EmptyString)]))) as [E _].
  eapply E.
  - vm_compute. discriminate.
  - reflexivity.
  - reflexivity.
Defined.

(** The handler on concrete calls. *)

Example stamps_of_one_run :
  recorded_stamps one_run
    (fst (invoke_all one_run (AVPCredentialCallback.__init__ model_heap)))
  = [("llm_start", "2024-01-01T00:00:00"); ("llm_end", "2024-01-01T00:00:01")].
Proof. reflexivity. Qed.

Example audit_log_of_one_run :
  let s := snd (invoke_all one_run (AVPCredentialCallback.__init__ model_heap)) in
  entry_stamp <$> default [] (read_entries (heap (snd (get_audit_log s)))
                               (default VNone (fst_value (get_audit_log s))))
  = [Some ("llm_start", "2024-01-01T00:00:00");
     Some ("llm_end", "2024-01-01T00:00:01")].
Proof. reflexivity. Qed.

Example on_llm_start_metadata :
  let s := snd (on_llm_start "2024-01-01T00:00:00" serialized_model
                  ["Hello"] (Some "run-1")
                  (AVPCredentialCallback.__init__ model_heap)) in
  audit_entries s =
    Some [<["metadata" := VRef 5]>
          (<["timestamp" := VStr "2024-01-01T00:00:00"]>
          (<["event" := VStr "llm_start"]>
          (<["run_id" := VStr "run-1"]> ∅)))]
  /\ heap s !! 5 =
       Some (ODict (<["provider" := VStr "ChatAnthropic"]>
                   (<["model" := VStr "claude-3-haiku-20240307"]>
                   (<["prompt_count" := VInt 1]> ∅)))).
Proof. repeat split. Qed.

(** C6 fails as stated: the list returned is new but its entries are
    the sink's own dicts.  A caller that sets a key of the first entry
    it was given changes what the sink holds and what the next
    [get_audit_log] returns. *)
Lemma snapshot_shares_entries :
  fst (get_audit_log one_error_logged) = Returns (VRef 3)
  /\ list_items (heap (snd (get_audit_log one_error_logged))) (VRef 3)
     = Some [VRef 2]
  /\ first_event (audit_entries one_error_logged)
     = Some (VStr "llm_error")
  /\ first_event
       (audit_entries
          (caller_dict_setitem 2 "event" (VStr "tampered")
             (snd (get_audit_log one_error_logged))))
     = Some (VStr "tampered")
  /\ first_event
       (read_entries
          (heap (snd (get_audit_log
             (caller_dict_setitem 2 "event" (VStr "tampered")
                (snd (get_audit_log one_error_logged))))))
          (VRef 4))
     = Some (VStr "tampered")
  /\ fst (get_audit_log
            (caller_dict_setitem 2 "event" (VStr "tampered")
               (snd (get_audit_log one_error_logged))))
     = Returns (VRef 4).
Proof. repeat split. Qed.

Lemma snapshot_list_is_private_witness :
  audit_entries one_error_logged = Some [error_entry]
  /\ audit_entries
       (caller_list_assign 3 [] (snd (get_audit_log one_error_logged)))
     = Some [error_entry].
Proof.
  destruct (snapshot_list_is_private one_error_logged [error_entry] [])
    as (l & s1 & G & _ & _ & _ & _ & A & _); [reflexivity|].
  assert (G0 : get_audit_log one_error_logged =
               (Returns (VRef 3), snd (get_audit_log one_error_logged)))
    by reflexivity.
  rewrite G0 in G. injection G as <- <-.
  split; [reflexivity|exact A].
Defined.


(** C9 fails as stated: a ["kwargs"] that is there but is not a dict,
    or an ["id"] that is truthy but neither a list nor a string, makes
    [on_llm_start] raise, and nothing is appended. *)
Lemma on_llm_start_raises :
  fst (on_llm_start "2024-01-01T00:00:00" {["kwargs" := VNone]} ["Hello"]
         None (AVPCredentialCallback.__init__ []))
  = Raises (AttributeError "'NoneType' object has no attribute 'get'")
  /\ audit_entries
       (snd (on_llm_start "2024-01-01T00:00:00" {["kwargs" := VNone]}
               ["Hello"] None (AVPCredentialCallback.__init__ [])))
     = Some []
  /\ fst (on_llm_start "2024-01-01T00:00:00" {["id" := VInt 7]} ["Hello"]
            None (AVPCredentialCallback.__init__ []))
     = Raises (TypeError "'int' object is not subscriptable").
Proof. repeat split. Qed.

Lemma on_llm_start_records_witness :
  audit_entries (AVPCredentialCallback.__init__ model_heap) = Some []
  /\ well_shaped (heap (AVPCredentialCallback.__init__ model_heap))
       serialized_model
  /\ exists s',
       on_llm_start "2024-01-01T00:00:00" serialized_model ["Hello"]
         (Some "run-1") (AVPCredentialCallback.__init__ model_heap)
       = (Returns tt, s')
       /\ length <$> audit_entries s' = Some 1.
Proof.
  assert (W : well_shaped (heap (AVPCredentialCallback.__init__ model_heap))
                serialized_model).
  { split; intros v L; vm_compute in L; injection L as <-.
    - by eexists.
    - split; [intros l [= <-]; by eexists|]. intros _. left. by eexists. }
  split; [reflexivity|]. split; [exact W|].
  destruct (on_llm_start_records "2024-01-01T00:00:00" serialized_model
              ["Hello"] (Some "run-1")
              (AVPCredentialCallback.__init__ model_heap) [])
    as (s' & m & model & provider & R & A & _);
    [reflexivity|exact W|].
  exists s'. split; [exact R|]. by rewrite A.
Defined.

(** * Further properties *)

(** ** Sequences of provider calls *)

Import ProviderCalls.

Section CallLogFacts.
Context {B : Type} `{!AVPClient B} `{!Codec} `{!Lower} `{!Backends B}.





(** The constructor, outcome by outcome. *)
Lemma init_cases vault_path password workspace backend :
  match select_backend vault_path password backend with
  | Raises e => __init__ vault_path password workspace backend = (Raises e, None)
  | Returns b0 =>
      match new_client b0 with
      | Raises e =>
          __init__ vault_path password workspace backend
          = (Raises e, Some (mk workspace b0 None None []))
      | Returns b =>
          match client_authenticate workspace b with
          | (Returns sid, b') =>
              __init__ vault_path password workspace backend
              = (Returns tt,
                 Some (mk workspace b' (Some tt) (Some sid)
                         [CallAuthenticate workspace]))
          | (Raises e, b') =>
              __init__ vault_path password workspace backend
              = (Raises e,
                 Some (mk workspace b' (Some tt) None
                         [CallAuthenticate workspace]))
          end
      end
  end.
Proof.
  unfold __init__, _connect.
  destruct (select_backend _ _ _) as [b0|e]; [|done].
  py_unfold. unfold client_call. simpl.
  destruct (new_client b0) as [b|e]; [|done]. simpl.
  by destruct (client_authenticate workspace b) as [[sid|e] b'].
Qed.



Lemma rotate_returned name value (s s1 : t B) :
  rotate name value s = (Returns tt, s1) ->
  _client s1 <> None
  /\ _session_id s1 = _session_id s
  /\ client_rotate (_session_id s) name (encode value) (_backend s)
     = (Returns tt, _backend s1).
Proof.
  unfold rotate. py_unfold. unfold client_call.
  destruct (_client s) eqn:E; [|done].
  destruct (client_rotate _ _ _ _) as [[[]|e] b]; [|done].
  intros [= <-]. done.
Qed.

(** X2. On a backend where a rotated secret is the one retrieved,
    [get(name)] right after a [rotate(name, v)] that returned gives [v],
    for a value the codec takes there and back. *)
Theorem get_after_rotate `{!RotatesSecrets B} (name v : string)
    (dflt : option string) (s s1 : t B) :
  rotate name v s = (Returns tt, s1) ->
  decode (encode v) = Some v ->
  fst (get name dflt s1) = Returns (Some v).
Proof.
  intros R D. apply rotate_returned in R as (C & I & R).
  apply retrieve_after_rotate in R.
  rewrite get_attached by done. simpl. rewrite I, R. simpl. by rewrite D.
Qed.

End CallLogFacts.

(** ** The dispatch of the client factory *)

Import Dispatch.

Section DispatchFacts.
Context {B : Type} `{!AVPClient B} `{!Codec} `{!Lower}.
Context {Kw LLM : Type} `{!Sdk Kw LLM}.

(** Past the key guard, [get_llm_with_avp] is a lookup of the lower-cased
    provider in the table of branches. *)
Lemma get_llm_dispatch provider model (kwargs : Kw) (s : t B) :
  truthy_str (fst_result (get_api_key provider s)) = true ->
  get_llm_with_avp provider model kwargs s =
    match branches !! lower provider with
    | Some (cls, install, dflt) =>
        import_and_construct (LLM := LLM) cls install
          (default EmptyString (fst_result (get_api_key provider s)))
          (str_or model dflt) kwargs
    | None => raise (unknown_provider (lower provider))
    end (snd (get_api_key provider s)).
Proof.
  unfold fst_result, get_llm_with_avp, get_api_key. py_unfold.
  destruct (get_returns (credential_name provider) None s) as (r & s1 & ->).
  simpl. intros ->. simpl. unfold branches.
  destruct (String.eqb_spec (lower provider) "anthropic") as [->|N1];
    [done|].
  rewrite lookup_insert_ne by done.
  destruct (String.eqb_spec (lower provider) "openai") as [->|N2]; [done|].
  rewrite lookup_insert_ne by done.
  destruct (String.eqb_spec (lower provider) "cohere") as [->|N3]; [done|].
  rewrite lookup_insert_ne by done.
  destruct (String.eqb_spec (lower provider) "mistral") as [->|N4]; [done|].
  rewrite lookup_insert_ne by done.
  by rewrite lookup_empty.
Qed.

Lemma truthy_key (key : string) :
  key <> EmptyString -> truthy_str (Some key) = true.
Proof. by destruct key. Qed.

(** X3. For a supported provider -- its name, in any letter case, is
    one of anthropic, openai, cohere, mistral -- with a non-empty API key
    in the vault and the package installed, [get_llm_with_avp] gives what
    the provider's class gives when built with that key, the [model]
    argument when it is non-empty and the provider's default model
    otherwise; the constructor is called once, after the retrieval. *)
Theorem llm_constructed (provider : string) (model : option string)
    (kwargs : Kw) (s : t B) (key : string)
    (cls : chat_model) (install dflt : string) :
  branches !! lower provider = Some (cls, install, dflt) ->
  fst (get_api_key provider s) = Returns (Some key) ->
  key <> EmptyString ->
  importable cls = true ->
  fst (get_llm_with_avp provider model kwargs s) =
    construct cls key (str_or model dflt) kwargs
  /\ trace (snd (get_llm_with_avp provider model kwargs s)) =
       trace (snd (get_api_key provider s))
       ++ [CallConstruct cls key (str_or model dflt)].
Proof.
  intros Br K N I.
  rewrite get_llm_dispatch by (unfold fst_result; rewrite K; by apply truthy_key).
  rewrite Br. unfold import_and_construct, fst_result. rewrite I, K. done.
Qed.

(** X4. For a supported provider with a non-empty API key in the vault
    whose package is not installed, [get_llm_with_avp] raises the
    [ImportError] with the install hint of that provider; the key has
    been retrieved by then, and no constructor is called. *)
Theorem llm_package_missing (provider : string) (model : option string)
    (kwargs : Kw) (s : t B) (key : string)
    (cls : chat_model) (install dflt : string) :
  branches !! lower provider = Some (cls, install, dflt) ->
  fst (get_api_key provider s) = Returns (Some key) ->
  key <> EmptyString ->
  importable cls = false ->
  get_llm_with_avp provider model kwargs s =
    (Raises (ImportError install) : outcome LLM, snd (get_api_key provider s)).
Proof.
  intros Br K N I.
  rewrite get_llm_dispatch by (unfold fst_result; rewrite K; by apply truthy_key).
  rewrite Br. unfold import_and_construct. by rewrite I.
Qed.

(** X5. Whatever the provider, the model and the outcome,
    [get_llm_with_avp] reads the vault once and never writes to it: the
    backend is left as the one retrieval left it, and after the
    retrieval the only call that can follow is a single constructor
    call, made with the very key that was retrieved. *)
Theorem llm_reads_once (provider : string) (model : option string)
    (kwargs : Kw) (s : t B) :
  _backend (snd (get_llm_with_avp provider model kwargs s)) =
    _backend (snd (get_api_key provider s))
  /\ (trace (snd (get_llm_with_avp provider model kwargs s)) =
        trace (snd (get_api_key provider s))
      \/ exists cls key m,
           fst (get_api_key provider s) = Returns (Some key)
           /\ trace (snd (get_llm_with_avp provider model kwargs s)) =
                trace (snd (get_api_key provider s))
                ++ [CallConstruct cls key m]).
Proof.
  destruct (truthy_str (fst_result (get_api_key provider s))) eqn:T.
  - rewrite get_llm_dispatch by done.
    destruct (branches !! lower provider) as [[[cls install] dflt]|];
      [|split; [done|by left]].
    unfold import_and_construct. destruct (importable cls);
      [|split; [done|by left]].
    simpl. split; [done|]. right.
    unfold fst_result in *.
    destruct (get_returns (credential_name provider) None s)
      as (r & s1 & G).
    unfold get_api_key in *. rewrite G in *. simpl in *.
    destruct r as [key|]; [|done]. eauto.
  - rewrite (get_llm_no_key (LLM := LLM)) by done. split; [done|by left].
Qed.

Lemma credential_name_lower (p p' : string) :
  lower p = lower p' -> credential_name p = credential_name p'.
Proof. unfold credential_name. by intros ->. Qed.

(** X6. The provider name is matched without regard to letter case:
    two names with the same lower-cased form read the same credential,
    and when that credential is a non-empty key, [get_llm_with_avp] does
    the same for both -- the same outcome and the same state. *)
Theorem llm_case_insensitive (p p' : string) (model : option string)
    (kwargs : Kw) (s : t B) :
  lower p = lower p' ->
  get_api_key p s = get_api_key p' s
  /\ (truthy_str (fst_result (get_api_key p s)) = true ->
      get_llm_with_avp (LLM := LLM) p model kwargs s =
      get_llm_with_avp p' model kwargs s).
Proof.
  intros L.
  assert (G : get_api_key p s = get_api_key p' s).
  { unfold get_api_key. by rewrite (credential_name_lower p p'). }
  split; [done|]. intros T.
  rewrite (get_llm_dispatch p) by done.
  rewrite (get_llm_dispatch p') by (by rewrite <- G).
  by rewrite G, L.
Qed.

End DispatchFacts.

(** ** Loading credentials into the environment *)

Import LoadCredentials.

Section LoadFacts.
Context {B : Type} `{!AVPClient B} `{!Codec} `{!Backends B}.
Context {E : Type} `{!Environ E}.

(** The loop body, spelled out: [get] always returns, so the only thing
    that can raise is the assignment. *)
Lemma load_one_eq (env_name cred_name : string) (w : t B * E) :
  load_one env_name cred_name w =
    if truthy_str (found (fst w) cred_name)
    then (fst (environ_set env_name
                 (default EmptyString (found (fst w) cred_name)) (snd w)),
          (snd (get cred_name None (fst w)),
           snd (environ_set env_name
                  (default EmptyString (found (fst w) cred_name)) (snd w))))
    else (Returns tt, (snd (get cred_name None (fst w)), snd w)).
Proof.
  unfold load_one, found, fst_result, on_provider, on_environ. py_unfold.
  destruct (get_returns cred_name None (fst w)) as (r & s' & ->). simpl.
  destruct (truthy_str r); [|done]. simpl.
  by destruct (environ_set _ _ _).
Qed.

Lemma load_all_cons env_name cred_name rest (w : t B * E) :
  load_all ((env_name, cred_name) :: rest) w =
    match fst (load_one env_name cred_name w) with
    | Returns _ => load_all rest (snd (load_one env_name cred_name w))
    | Raises e => (Raises e, snd (load_one env_name cred_name w))
    end.
Proof.
  simpl. py_unfold. by destruct (load_one env_name cred_name w) as [[[]|e] w'].
Qed.

Lemma load_one_provider env_name cred_name (w : t B * E) :
  fst (snd (load_one env_name cred_name w)) = snd (get cred_name None (fst w)).
Proof. rewrite load_one_eq. by destruct (truthy_str _). Qed.

Lemma load_all_trace (items : list (string * string)) (w : t B * E) :
  _client (fst w) <> None ->
  exists n,
    trace (fst (snd (load_all items w))) =
      trace (fst w)
      ++ ((fun item => CallRetrieve (_session_id (fst w)) (snd item))
            <$> take n items)
    /\ (returned (fst (load_all items w)) = true -> n = length items)
    /\ _session_id (fst (snd (load_all items w))) = _session_id (fst w).
Proof.
  revert w. induction items as [|[k c] rest IH]; intros w C.
  - exists 0. simpl. by rewrite app_nil_r.
  - rewrite load_all_cons.
    pose proof (load_one_provider k c w) as P.
    pose proof (get_trace c None (fst w)) as T.
    destruct (get_keeps_client c None (fst w)) as [C1 S1].
    destruct (_client (fst w)) eqn:Cw; [|done].
    destruct (fst (load_one k c w)) as [[]|e].
    + destruct (IH (snd (load_one k c w))) as (n & Tn & Rn & Sn);
        [rewrite P; congruence|].
      exists (S n). rewrite Tn, Sn, P, T, S1. simpl.
      rewrite <- app_assoc. split; [done|]. split; [|done].
      intros R. by rewrite Rn.
    + exists 1. simpl. rewrite ?take_0, P, T, S1. done.
Qed.

(** X7. [load_credentials] only reads the vault, and reaches it only
    after the constructor has a backend and a client.  When the password
    prompt or [FileBackend] raises, that exception is the outcome and
    there is no provider, so no call is made.  When [AVPClient(...)]
    raises, that exception is the outcome and no call has been made.
    Otherwise, in every outcome, the calls made are the authentication of
    the constructor followed by one retrieval for each entry of
    [env_vars] it got to, in the order of the entries and in the session
    of the provider -- for all the entries when it returns.  It never
    stores, deletes, rotates or closes. *)
Theorem load_credentials_call_log (vault_path : string)
    (password : option string) (workspace : string)
    (env_vars : option (list (string * string))) (env : E) :
  match select_backend (Some vault_path) password None with
  | Raises e =>
      load_credentials vault_path password workspace env_vars env
      = (Raises e, (None, env))
  | Returns b0 =>
      exists s,
        fst (snd (load_credentials vault_path password workspace env_vars env))
        = Some s
        /\ match new_client b0 with
           | Raises e =>
               load_credentials vault_path password workspace env_vars env
               = (Raises e, (Some s, env))
               /\ trace s = []
           | Returns _ =>
               exists n,
                 trace s =
                   CallAuthenticate workspace
                   :: ((fun item => CallRetrieve (_session_id s) (snd item))
                         <$> take n (default [] env_vars))
                 /\ (returned
                       (fst (load_credentials vault_path password workspace
                               env_vars env)) = true
                     -> n = length (default [] env_vars))
           end
  end.
Proof.
  unfold load_credentials.
  pose proof (init_cases (Some vault_path) password workspace None) as I.
  destruct (select_backend _ _ _) as [b0|e]; [|by rewrite I].
  destruct (new_client b0) as [b|e]; [|rewrite I; by eexists].
  destruct (client_authenticate workspace b) as [[sid|e] b']; rewrite I.
  - destruct env_vars as [[|item items]|].
    + eexists. split; [done|]. by exists 0.
    + destruct (load_all_trace (item :: items)
                  (mk workspace b' (Some tt) (Some sid)
                      [CallAuthenticate workspace], env))
        as (n & T & R & S); [done|].
      destruct (load_all (item :: items) _) as [r w].
      exists (fst w). split; [done|]. exists n.
      simpl in T, R, S |- *. by rewrite T, S.
    + eexists. split; [done|]. by exists 0.
  - eexists. split; [done|]. exists 0. by rewrite take_0.
Qed.

Lemma load_all_raises (items : list (string * string)) (w : t B * E) e :
  fst (load_all items w) = Raises e ->
  exists k v e0, fst (environ_set k v e0) = Raises e.
Proof.
  revert w. induction items as [|[k c] rest IH]; intros w; [done|].
  rewrite load_all_cons.
  destruct (fst (load_one k c w)) as [[]|e'] eqn:L.
  - apply IH.
  - simpl. intros [= ->]. rewrite load_one_eq in L.
    destruct (truthy_str _); [|done]. simpl in L. eauto.
Qed.

(** X8. The only exceptions [load_credentials] raises are the
    constructor's and those of an assignment to [os.environ]: a
    credential that is missing from the vault, or that cannot be read or
    decoded, is skipped without an error. *)
Theorem load_credentials_raises (vault_path : string)
    (password : option string) (workspace : string)
    (env_vars : option (list (string * string))) (env : E) (e : exn) :
  fst (load_credentials vault_path password workspace env_vars env)
  = Raises e ->
  fst (__init__ (Some vault_path) password workspace None) = Raises e
  \/ exists k v e0, fst (environ_set k v e0) = Raises e.
Proof.
  unfold load_credentials.
  destruct (__init__ _ _ _ _) as [[[]|e'] [s|]]; try done.
  - destruct env_vars as [[|item items]|]; try done.
    destruct (load_all (item :: items) (s, env)) as [r w] eqn:L.
    intros R. right.
    apply (load_all_raises (item :: items) (s, env)). by rewrite L.
  - intros [= ->]. by left.
  - intros [= ->]. by left.
Qed.

Lemma load_all_frame `{!LawfulEnviron E} (items : list (string * string))
    (w : t B * E) (k : string) :
  k ∉ fst <$> items ->
  environ_get k (snd (snd (load_all items w))) = environ_get k (snd w).
Proof.
  revert w. induction items as [|[k0 c] rest IH]; intros w N; [done|].
  simpl in N. apply not_elem_of_cons in N as [N0 N].
  assert (F : environ_get k (snd (snd (load_one k0 c w)))
              = environ_get k (snd w)).
  { rewrite load_one_eq. destruct (truthy_str _); [|done]. simpl.
    by apply environ_get_set_other. }
  rewrite load_all_cons. destruct (fst (load_one k0 c w)) as [[]|e].
  - by rewrite IH.
  - done.
Qed.

(** X9. [load_credentials] touches no environment variable other than
    those named in [env_vars], whether it returns or raises. *)
Theorem load_credentials_frame `{!LawfulEnviron E} (vault_path : string)
    (password : option string) (workspace : string)
    (env_vars : option (list (string * string))) (env : E) (k : string) :
  k ∉ fst <$> default [] env_vars ->
  environ_get k
    (snd (snd (load_credentials vault_path password workspace env_vars env)))
  = environ_get k env.
Proof.
  intros N. unfold load_credentials.
  destruct (__init__ _ _ _ _) as [[[]|e] [s|]]; try done.
  destruct env_vars as [[|item items]|]; try done.
  pose proof (load_all_frame (item :: items) (s, env) k N) as F.
  by destruct (load_all (item :: items) (s, env)) as [r w].
Qed.

(** With a backend that retrieving leaves alone, what [get] finds
    depends on the provider's backend, session and client only. *)
Lemma found_same (s s0 : t B) cred :
  _backend s = _backend s0 -> _session_id s = _session_id s0 ->
  _client s = _client s0 ->
  found s cred = found s0 cred.
Proof.
  intros Hb Hs Hc. unfold found, fst_result.
  destruct (_client s0) eqn:C.
  - rewrite !get_attached by congruence. simpl. by rewrite Hb, Hs.
  - rewrite !get_detached by congruence. done.
Qed.

Lemma get_same `{!RetrieveIsRead B} (s : t B) cred :
  _backend (snd (get cred None s)) = _backend s.
Proof.
  destruct (_client s) eqn:C.
  - rewrite get_attached by congruence. simpl. apply retrieve_keeps_backend.
  - by rewrite get_detached.
Qed.

Lemma load_all_sets `{!RetrieveIsRead B} `{!LawfulEnviron E}
    (items : list (string * string)) (s0 : t B) (w w1 : t B * E) :
  _backend (fst w) = _backend s0 -> _session_id (fst w) = _session_id s0 ->
  _client (fst w) = _client s0 ->
  NoDup (fst <$> items) ->
  load_all items w = (Returns tt, w1) ->
  forall k cred, (k, cred) ∈ items ->
    environ_get k (snd w1) =
      if truthy_str (found s0 cred) then found s0 cred
      else environ_get k (snd w).
Proof.
  revert w. induction items as [|[k0 c0] rest IH];
    intros w Hb Hs Hc D L k cred I; [by apply elem_of_nil in I|].
  simpl in D. apply NoDup_cons in D as [N0 D].
  rewrite load_all_cons in L.
  destruct (fst (load_one k0 c0 w)) as [[]|e] eqn:L1; [|done].
  destruct (get_keeps_client c0 None (fst w)) as [C1 S1].
  pose proof (load_one_provider k0 c0 w) as P.
  assert (F0 : found (fst w) c0 = found s0 c0) by by apply found_same.
  assert (Env : environ_get k0 (snd (snd (load_one k0 c0 w))) =
                if truthy_str (found s0 c0) then found s0 c0
                else environ_get k0 (snd w)).
  { rewrite load_one_eq in L1 |- *. rewrite F0 in *.
    destruct (found s0 c0) as [[|ch v]|] eqn:Fd; simpl in *; try done.
    destruct (environ_set k0 (String ch v) (snd w)) as [[[]|e] e1] eqn:Se;
      [|done].
    simpl. by eapply environ_get_set. }
  apply elem_of_cons in I as [[= -> ->]|I].
  - rewrite <- Env.
    pose proof (load_all_frame rest (snd (load_one k0 c0 w)) k0 N0) as Fr.
    by rewrite L in Fr.
  - assert (k <> k0).
    { intros ->. apply N0. apply list_elem_of_fmap. by exists (k0, cred). }
    rewrite (IH (snd (load_one k0 c0 w))) with (cred := cred); try done.
    + destruct (truthy_str (found s0 cred)); [done|].
      rewrite load_one_eq. destruct (truthy_str (found (fst w) c0)); [|done].
      simpl. by apply environ_get_set_other.
    + rewrite P, get_same. done.
    + rewrite P. congruence.
    + rewrite P. congruence.
Qed.

(** X10. On a backend that retrieving leaves alone and an environment
    whose assignments take effect, when [load_credentials] returns, each
    variable named in [env_vars] whose credential is in the vault and
    non-empty holds that credential; a variable whose credential is
    missing or empty keeps the value it had -- it is neither cleared nor
    reported. *)
Theorem load_credentials_sets `{!RetrieveIsRead B} `{!LawfulEnviron E}
    (vault_path : string) (password : option string) (workspace : string)
    (items : list (string * string)) (env : E) (s0 : t B)
    (s1 : option (t B)) (env1 : E) :
  __init__ (Some vault_path) password workspace None = (Returns tt, Some s0) ->
  NoDup (fst <$> items) ->
  load_credentials vault_path password workspace (Some items) env
    = (Returns tt, (s1, env1)) ->
  forall k cred, (k, cred) ∈ items ->
    environ_get k env1 =
      if truthy_str (found s0 cred) then found s0 cred
      else environ_get k env.
Proof.
  intros I D L k cred In. unfold load_credentials in L. rewrite I in L.
  destruct items as [|item items]; [by apply elem_of_nil in In|].
  destruct (load_all (item :: items) (s0, env)) as [r w] eqn:La.
  injection L as -> _ <-.
  by apply (load_all_sets (item :: items) s0 (s0, env) w).
Qed.

End LoadFacts.

(** ** More on the audit callback *)

Section EndAndErrorFacts.
Implicit Types (s : AVPCredentialCallback.t) (v : value) (l e : loc).
Implicit Types (h ext : list object) (es : list (gmap string value)).

(** [_log] with a non-empty metadata dict freshly allocated: besides
    appending the entry, it keeps every dict and the current run. *)
Lemma log_metadata_keeps now event s0 es h md run :
  audit_entries s0 = Some es ->
  (exists ext, h = heap s0 ++ ext) ->
  md <> ∅ ->
  exists s',
    _log now event (VRef (length h))
      (AVPCredentialCallback.mk (h ++ [ODict md]) (_audit_log s0) run)
    = (Returns tt, s')
    /\ audit_entries s' =
         Some (es ++ [<["metadata" := VRef (length h)]>
                      (<["timestamp" := VStr now]>
                      (<["event" := VStr event]>
                      (<["run_id" := from_option VStr VNone run]> ∅)))])
    /\ (forall l d, (h ++ [ODict md]) !! l = Some (ODict d) ->
                    heap s' !! l = Some (ODict d))
    /\ _current_run s' = run.
Proof.
  intros E X N.
  destruct (log_metadata now event s0 es h md run E X N) as (s' & Lg & A & _).
  exists s'. split; [done|]. split; [done|].
  destruct X as [ext ->].
  destruct (log_recorded now event (VRef (length (heap s0 ++ ext)))
              (AVPCredentialCallback.mk ((heap s0 ++ ext) ++ [ODict md])
                 (_audit_log s0) run))
    as (s'' & Lg' & C & Rec).
  { destruct (audit_entries_log_is_list _ _ E) as [items L].
    exists items. simpl. rewrite <- app_assoc. by apply lookup_grown. }
  rewrite Lg in Lg'. injection Lg' as <-. split; [|done].
  intros l d D. by eapply recorded_keeps_dicts.
Qed.

(** X11. [on_llm_error] always returns.  It appends exactly one entry:
    event [llm_error], the time of the call, the run id of the run in
    progress ([None] when there is none), and a metadata dict holding
    the message and the type name of the error; it then marks the run as
    over. *)
Theorem on_llm_error_records (now : string) (error : error_info)
    (s : AVPCredentialCallback.t) (es : list (gmap string value)) :
  audit_entries s = Some es ->
  exists s' m,
    on_llm_error now error s = (Returns tt, s')
    /\ audit_entries s' =
         Some (es ++ [<["metadata" := VRef m]>
                      (<["timestamp" := VStr now]>
                      (<["event" := VStr "llm_error"]>
                      (<["run_id" := from_option VStr VNone (_current_run s)]>
                       ∅)))])
    /\ heap s' !! m =
         Some (ODict (<["error" := VStr (error_str error)]>
                     (<["error_type" := VStr (error_type_name error)]> ∅)))
    /\ _current_run s' = None.
Proof.
  intros E. unfold on_llm_error, set_current_run, new, alloc. py_unfold.
  simpl.
  edestruct (log_metadata_keeps now "llm_error" s es (heap s))
    as (s' & Lg & A & K & _);
    [exact E|exists []; by rewrite app_nil_r|apply insert_non_empty|].
  rewrite Lg. simpl. eexists _, _. split; [done|]. split; [exact A|].
  split; [|done]. apply K, lookup_fresh.
Qed.

(** X12. When [llm_output] is falsy or a dict, [on_llm_end] returns and
    appends exactly one entry: event [llm_end], the time of the call,
    the run id of the run in progress, and a metadata dict with the
    number of generations and the token usage; it then marks the run as
    over.  The token usage is the very object stored under
    ["token_usage"] in [llm_output] -- a reference to it, not a copy --
    and a new empty dict when [llm_output] is falsy or has no such
    key. *)
Theorem on_llm_end_records (now : string) (response : LLMResult)
    (s : AVPCredentialCallback.t) (es : list (gmap string value)) :
  audit_entries s = Some es ->
  allocated (heap s) (llm_output response) ->
  (truthy (heap s) (llm_output response) = true ->
   is_Some (dict_fields (heap s) (llm_output response))) ->
  exists s' m usage,
    on_llm_end now response s = (Returns tt, s')
    /\ audit_entries s' =
         Some (es ++ [<["metadata" := VRef m]>
                      (<["timestamp" := VStr now]>
                      (<["event" := VStr "llm_end"]>
                      (<["run_id" := from_option VStr VNone (_current_run s)]>
                       ∅)))])
    /\ heap s' !! m =
         Some (ODict
           (<["generations" :=
                VInt (Z.of_nat (length (generations response)))]>
           (<["token_usage" := usage]> ∅)))
    /\ (forall d x,
          truthy (heap s) (llm_output response) = true ->
          dict_fields (heap s) (llm_output response) = Some d ->
          d !! "token_usage" = Some x ->
          usage = x)
    /\ (truthy (heap s) (llm_output response) = false
        \/ (exists d, dict_fields (heap s) (llm_output response) = Some d
                      /\ d !! "token_usage" = None) ->
        exists l, usage = VRef l
                  /\ heap s !! l = None
                  /\ heap s' !! l = Some (ODict ∅))
    /\ _current_run s' = None.
Proof.
  intros E A D.
  unfold on_llm_end, set_current_run, lift, new, alloc. py_unfold. simpl.
  rewrite truthy_grown by done.
  destruct (truthy (heap s) (llm_output response)) eqn:T; simpl.
  - destruct (D eq_refl) as [d Dd].
    rewrite (dict_get_grown (heap s ++ [ODict ∅]) [ODict ∅] _ d)
      by by apply dict_fields_grown.
    simpl.
    edestruct (log_metadata_keeps now "llm_end" s es
                 ((heap s ++ [ODict ∅]) ++ [ODict ∅]))
      as (s' & Lg & Ae & K & _);
      [exact E| |apply insert_non_empty|].
    { exists ([ODict ∅] ++ [ODict ∅]). by rewrite app_assoc. }
    rewrite Lg. simpl.
    eexists _, _, _. split; [done|]. split; [exact Ae|].
    split; [apply K, lookup_fresh|]. split; [|split; [|done]].
    + intros d' x _ Dd' X. rewrite Dd in Dd'. injection Dd' as <-.
      by rewrite X.
    + intros [?|(d' & Dd' & X)]; [done|].
      rewrite Dd in Dd'. injection Dd' as <-. rewrite X. simpl.
      eexists. split; [done|]. split.
      * apply lookup_ge_None. rewrite length_app. simpl. lia.
      * apply K. apply lookup_grown. apply lookup_fresh.
  - edestruct (log_metadata_keeps now "llm_end" s es (heap s ++ [ODict ∅]))
      as (s' & Lg & Ae & K & _);
      [exact E|by eexists|apply insert_non_empty|].
    rewrite Lg. simpl.
    eexists _, _, _. split; [done|]. split; [exact Ae|].
    split; [apply K, lookup_fresh|]. split; [done|]. split; [|done].
    intros _. eexists. split; [done|]. split.
    + apply lookup_ge_None. lia.
    + apply K. apply lookup_grown. apply lookup_fresh.
Qed.

(** [on_llm_start] sets the current run first: it is set in every
    outcome. *)
Lemma on_llm_start_current_run now serialized prompts run_id s :
  log_is_list s ->
  _current_run (snd (on_llm_start now serialized prompts run_id s)) =
    if truthy_str run_id then run_id else None.
Proof.
  intros L.
  unfold on_llm_start, set_current_run, lift, new, alloc. py_unfold.
  simpl. destruct (dict_get _ _ _ _) as [model|err]; simpl; [|done].
  destruct (truthy _ _); simpl.
  - destruct (subscript_last _ _) as [provider|err]; simpl; [|done].
    edestruct log_after_growth as (s' & e & entry & -> & _ & _ & _ & C);
      [exact L| |exact C].
    simpl. rewrite <- !app_assoc. apply grown_alloc.
  - edestruct log_after_growth as (s' & e & entry & -> & _ & _ & _ & C);
      [exact L| |exact C].
    simpl. rewrite <- !app_assoc. apply grown_alloc.
Qed.

(** X13. The run id given to [on_llm_start] is what the next
    [on_llm_error] logs, whether [on_llm_start] returned or raised: the
    error entry carries that run id -- [None] when it was omitted or
    empty -- and after it no run is in progress. *)
Theorem error_carries_run_id (now1 now2 : string)
    (serialized : gmap string value) (prompts : list string)
    (run_id : option string) (error : error_info)
    (s : AVPCredentialCallback.t) (es : list (gmap string value)) :
  audit_entries s = Some es ->
  exists s2 es1 entry,
    on_llm_error now2 error
      (snd (on_llm_start now1 serialized prompts run_id s)) = (Returns tt, s2)
    /\ audit_entries s2 = Some (es1 ++ [entry])
    /\ entry !! "event" = Some (VStr "llm_error")
    /\ entry !! "run_id" =
         Some (from_option VStr VNone
                 (if truthy_str run_id then run_id else None))
    /\ _current_run s2 = None.
Proof.
  intros E. pose proof (audit_entries_log_is_list _ _ E) as L.
  pose proof (on_llm_start_current_run now1 serialized prompts run_id s L)
    as C.
  destruct (handled_step "llm_start" now1 s
              (on_llm_start now1 serialized prompts run_id s) es)
    as [_ (ne & A & _)]; [by apply on_llm_start_handled|done|].
  set (s1 := snd (on_llm_start now1 serialized prompts run_id s)) in *.
  unfold on_llm_error, set_current_run, new, alloc. py_unfold. simpl.
  edestruct (log_metadata_keeps now2 "llm_error" s1 (es ++ ne) (heap s1))
    as (s' & Lg & A' & _ & _);
    [exact A|exists []; by rewrite app_nil_r|apply insert_non_empty|].
  rewrite Lg. simpl. eexists _, _, _. split; [done|].
  split; [exact A'|]. rewrite C. done.
Qed.

End EndAndErrorFacts.

Section StabilityFacts.
Implicit Types (s : AVPCredentialCallback.t) (v : value) (l e : loc).
Implicit Types (es : list (gmap string value)) (ms : list method).

Lemma handled_keeps_others event now s rs l o :
  handled event now s rs ->
  l <> _audit_log s ->
  heap s !! l = Some o ->
  heap (snd rs) !! l = Some o /\ _audit_log (snd rs) = _audit_log s.
Proof.
  unfold handled. intros H N L. destruct (fst rs) as [[]|err].
  - destruct H as (e & entry & (A & ext & items & La & Le & ->) & _).
    split; [|done]. rewrite list_lookup_insert_ne by done.
    by apply lookup_grown.
  - destruct H as [A [ext ->]]. split; [|done]. by apply lookup_grown.
Qed.

(** A method leaves every object but the sink's own list as it is, and
    the sink's list is never an object that was there before and was
    not the sink's. *)
Lemma invoke_keeps_others m s es l o :
  audit_entries s = Some es ->
  l <> _audit_log s ->
  heap s !! l = Some o ->
  heap (snd (invoke m s)) !! l = Some o
  /\ l <> _audit_log (snd (invoke m s)).
Proof.
  intros E N L. pose proof (audit_entries_log_is_list _ _ E) as Li.
  assert (W : forall event now (rs : outcome unit * AVPCredentialCallback.t),
    handled event now s rs ->
    heap (snd rs) !! l = Some o /\ l <> _audit_log (snd rs)).
  { intros event now rs H.
    destruct (handled_keeps_others _ _ _ _ _ _ H N L) as [K A].
    split; [done|congruence]. }
  destruct m as [now ser pr rid|now resp|now err| |]; unfold invoke;
    rewrite ?then_none_state.
  - apply (W "llm_start" now). by apply on_llm_start_handled.
  - apply (W "llm_end" now). by apply on_llm_end_handled.
  - apply (W "llm_error" now). by apply on_llm_error_handled.
  - destruct (get_audit_log_reads s es E) as (snap & s' & -> & [A [ext H]] & _).
    simpl. rewrite H, A. split; [by apply lookup_grown|done].
  - simpl. split; [by apply lookup_grown|].
    apply lookup_lt_Some in L. lia.
Qed.

Lemma mapM_dict_fields_kept (h h' : list object) vs ds :
  (forall l d, h !! l = Some (ODict d) -> h' !! l = Some (ODict d)) ->
  mapM (dict_fields h) vs = Some ds ->
  mapM (dict_fields h') vs = Some ds.
Proof.
  intros K. rewrite !mapM_Some. intros F.
  eapply Forall2_impl; [exact F|]. intros v d.
  destruct v as [| | | |l]; try done. simpl.
  destruct (h !! l) as [[|d']|] eqn:L; try done.
  intros [= <-]. by rewrite (K _ _ L).
Qed.

Lemma snapshot_kept ms s es0 l items es :
  audit_entries s = Some es0 ->
  l <> _audit_log s ->
  heap s !! l = Some (OList items) ->
  mapM (dict_fields (heap s)) items = Some es ->
  heap (snd (invoke_all ms s)) !! l = Some (OList items)
  /\ mapM (dict_fields (heap (snd (invoke_all ms s)))) items = Some es.
Proof.
  revert s es0. induction ms as [|m ms IH]; intros s es0 E N L F; [done|].
  rewrite invoke_all_cons. simpl.
  destruct (invoke_invariant m s es0 E) as [[es1 E1] K].
  destruct (invoke_keeps_others m s es0 l _ E N L) as [L1 N1].
  apply (IH _ es1); try done.
  by eapply mapM_dict_fields_kept.
Qed.

(** X14. A list returned by [get_audit_log] is never touched again by
    the handler: whatever methods are called afterwards -- recording
    calls, further snapshots, [clear_audit_log] -- the list holds the
    same items and reads as the same entries as when it was returned.
    In particular clearing the log does not empty a snapshot taken
    before. *)
Theorem snapshot_is_stable (s s1 : AVPCredentialCallback.t)
    (es : list (gmap string value)) (snap : value) (ms : list method) :
  audit_entries s = Some es ->
  get_audit_log s = (Returns snap, s1) ->
  read_entries (heap (snd (invoke_all ms s1))) snap = Some es
  /\ list_items (heap (snd (invoke_all ms s1))) snap
     = list_items (heap s1) snap.
Proof.
  intros E G. pose proof E as E'.
  apply audit_entries_Some in E' as (items & L & F).
  destruct (get_audit_log_copy s items L) as [G' N].
  rewrite G' in G. injection G as <- <-.
  destruct (snapshot_kept ms
              (AVPCredentialCallback.mk (heap s ++ [OList items])
                 (_audit_log s) (_current_run s))
              es (length (heap s)) items es) as [K1 K2].
  - eapply grown_audit_entries; [apply (grown_alloc s [_])|done].
  - done.
  - apply lookup_fresh.
  - by apply mapM_dict_fields_grown.
  - unfold read_entries, list_items. rewrite K1. simpl.
    rewrite lookup_fresh. done.
Qed.

Lemma stamps_are_there (new_entries : list (gmap string value))
    (xs : list (string * string)) :
  entry_stamp <$> new_entries = Some <$> xs ->
  Forall (fun entry => is_Some (entry_stamp entry)) new_entries.
Proof.
  revert xs. induction new_entries as [|entry rest IH]; intros xs; [done|].
  destruct xs as [|x xs]; [done|]. simpl. intros [= H1 H2].
  constructor; [by rewrite H1|by eapply IH].
Qed.

Lemma invoke_all_stamped ms s es :
  audit_entries s = Some es ->
  Forall (fun entry => is_Some (entry_stamp entry)) es ->
  exists es',
    audit_entries (snd (invoke_all ms s)) = Some es'
    /\ Forall (fun entry => is_Some (entry_stamp entry)) es'.
Proof.
  revert s es. induction ms as [|m ms IH]; intros s es E F; [eauto|].
  rewrite invoke_all_cons. simpl.
  assert (m = ClearAuditLog \/ m <> ClearAuditLog) as [->|N]
    by (destruct m; auto).
  - unfold invoke. rewrite then_none_state.
    destruct (clear_audit_log_empties s) as (s1 & -> & A & _).
    by apply (IH _ []).
  - destruct (invoke_step m s es E N) as [_ (ne & A & St)].
    apply (IH _ (es ++ ne)); [done|].
    apply Forall_app. split; [done|]. by eapply stamps_are_there.
Qed.

(** X15. Whatever methods are called on a new handler, and in whatever
    order, the log stays a list of dicts each of which holds an event
    string and a timestamp string: the subscripts [entry['timestamp']]
    and [entry['event']] of [print_audit_log] find their keys. *)
Theorem entries_are_stamped (h : list object) (ms : list method) :
  exists es,
    audit_entries (snd (invoke_all ms (AVPCredentialCallback.__init__ h)))
    = Some es
    /\ Forall (fun entry =>
                 exists event now,
                   entry !! "event" = Some (VStr event)
                   /\ entry !! "timestamp" = Some (VStr now)) es.
Proof.
  destruct (invoke_all_stamped ms (AVPCredentialCallback.__init__ h) [])
    as (es & A & F); [apply init_audit_entries|done|].
  exists es. split; [done|].
  eapply Forall_impl; [exact F|]. intros entry [[event now] St].
  unfold entry_stamp in St.
  destruct (entry !! "event") as [[| | |event'|]|]; try done.
  destruct (entry !! "timestamp") as [[| | |now'|]|]; try done.
  eauto.
Qed.

End StabilityFacts.

(** ** The further properties on the reference collaborators *)

Import Reference2.

#[export] Instance memory_client_rotates : RotatesSecrets vault.
Proof.
  split. intros sid name value b b'. simpl.
  destruct (is_open b); [|done].
  destruct (secrets b !! name); [|done]. intros [= <-]. simpl.
  by rewrite lookup_insert_eq.
Qed.

#[export] Instance memory_client_reads : RetrieveIsRead vault.
Proof.
  split. intros sid name b. simpl.
  destruct (is_open b); [|done]. by destruct (secrets b !! name).
Qed.

#[export] Instance map_environ_lawful : LawfulEnviron (gmap string string).
Proof.
  split.
  - intros k v e e'. simpl. intros [= <-]. apply lookup_insert_eq.
  - intros k k' v e N. simpl. by apply lookup_insert_ne.
Qed.


Lemma get_after_rotate_witness :
  fst (get "rotate_key" None
         (snd (rotate "rotate_key" "v2"
                 (connected (vault_of [("rotate_key", "v1")])))))
  = Returns (Some "v2").
Proof.
  apply (get_after_rotate "rotate_key" "v2" None
           (connected (vault_of [("rotate_key", "v1")]))); reflexivity.
Defined.

Lemma llm_constructed_witness :
  fst (get_llm_with_avp "OpenAI" (Some "gpt-4") tt (connected two_keys))
  = Returns (ChatOpenAI, "sk-test", "gpt-4")
  /\ fst (get_llm_with_avp "OpenAI" (Some EmptyString) tt (connected two_keys))
     = Returns (ChatOpenAI, "sk-test", "gpt-3.5-turbo").
Proof.
  split.
  - refine (proj1 (llm_constructed "OpenAI" (Some "gpt-4") tt
                     (connected two_keys) "sk-test" ChatOpenAI
                     "Install langchain-openai: pip install langchain-openai"
                     "gpt-3.5-turbo" _ _ _ _));
      [reflexivity|reflexivity|discriminate|reflexivity].
  - refine (proj1 (llm_constructed "OpenAI" (Some EmptyString) tt
                     (connected two_keys) "sk-test" ChatOpenAI
                     "Install langchain-openai: pip install langchain-openai"
                     "gpt-3.5-turbo" _ _ _ _));
      [reflexivity|reflexivity|discriminate|reflexivity].
Defined.

Lemma llm_package_missing_witness :
  fst (get_llm_with_avp (Sdk0 := bare_sdk) "Anthropic" None tt
         (connected two_keys))
  = Raises (ImportError
      "Install langchain-anthropic: pip install langchain-anthropic").
Proof.
  rewrite (llm_package_missing (Sdk0 := bare_sdk) "Anthropic" None tt
             (connected two_keys) "sk-ant-test" ChatAnthropic
             "Install langchain-anthropic: pip install langchain-anthropic"
             "claude-3-haiku-20240307");
    [reflexivity|reflexivity|reflexivity|discriminate|reflexivity].
Defined.

Lemma llm_case_insensitive_witness :
  get_llm_with_avp "OpenAI" None tt (connected two_keys)
  = get_llm_with_avp "OPENAI" None tt (connected two_keys).
Proof.
  refine (proj2 (llm_case_insensitive "OpenAI" "OPENAI" None tt
                   (connected two_keys) _) _); reflexivity.
Defined.

Lemma load_credentials_call_log_witness :
  exists s n,
    fst (snd (load_credentials "vault.enc" (Some "secret") "langchain"
                (Some env_vars_example) old_environ)) = Some s
    /\ trace s
       = CallAuthenticate "langchain"
         :: ((fun item => CallRetrieve (_session_id s) (snd item))
               <$> take n env_vars_example)
    /\ n = 3.
Proof.
  destruct (load_credentials_call_log "vault.enc" (Some "secret") "langchain"
              (Some env_vars_example) old_environ) as (s & L & n & T & R).
  exists s, n. split; [exact L|]. split; [exact T|]. apply R. reflexivity.
Defined.

(** With no password given and no terminal to read one from, the prompt
    raises and nothing else happens. *)
Example load_credentials_without_terminal :
  load_credentials "vault.enc" None "langchain" (Some env_vars_example)
    old_environ
  = (Raises (ExternalError "EOFError" "EOF when reading a line"),
     (None, old_environ)).
Proof. reflexivity. Qed.

Lemma load_credentials_raises_witness :
  fst (load_credentials "vault.enc" (Some "guess") "langchain"
         (Some env_vars_example) old_environ)
  = Raises (ExternalError "AVPError" "wrong password")
  /\ (fst (__init__ (Some "vault.enc") (Some "guess") "langchain" None)
      = Raises (ExternalError "AVPError" "wrong password")
      \/ exists k v (e0 : gmap string string),
           fst (environ_set k v e0)
           = Raises (ExternalError "AVPError" "wrong password")).
Proof.
  split; [reflexivity|].
  apply (load_credentials_raises "vault.enc" (Some "guess") "langchain"
           (Some env_vars_example) old_environ).
  reflexivity.
Defined.

Lemma load_credentials_frame_witness :
  environ_get "HOME"
    (snd (snd (load_credentials "vault.enc" (Some "secret") "langchain"
                 (Some env_vars_example) old_environ)))
  = Some "/root".
Proof.
  rewrite (load_credentials_frame "vault.enc" (Some "secret") "langchain"
             (Some env_vars_example) old_environ "HOME");
    [reflexivity|].
  simpl. not_in_list.
Defined.

Lemma load_credentials_sets_witness :
  environ_get "ANTHROPIC_API_KEY"
    (snd (snd (load_credentials "vault.enc" (Some "secret") "langchain"
                 (Some env_vars_example) old_environ)))
  = Some "sk-ant-test"
  /\ environ_get "COHERE_API_KEY"
       (snd (snd (load_credentials "vault.enc" (Some "secret") "langchain"
                    (Some env_vars_example) old_environ)))
     = Some "stale".
Proof.
  assert (D : NoDup (fst <$> env_vars_example)).
  { simpl. repeat (apply NoDup_cons; split; [not_in_list|]).
    apply NoDup_nil_2. }
  destruct (load_credentials "vault.enc" (Some "secret") "langchain"
              (Some env_vars_example) old_environ)
    as [[[]|e] [s1 env1]] eqn:L; [|discriminate L].
  pose proof (load_credentials_sets "vault.enc" (Some "secret") "langchain"
                env_vars_example old_environ (connected file_vault) s1 env1
                eq_refl D L) as P.
  split.
  - apply (P "ANTHROPIC_API_KEY" "anthropic_api_key"). set_solver.
  - apply (P "COHERE_API_KEY" "cohere_api_key"). set_solver.
Defined.

Lemma on_llm_error_records_witness :
  exists s' m,
    on_llm_error "2024-01-01T00:00:02" (mk_error "boom" "ValueError")
      (AVPCredentialCallback.__init__ []) = (Returns tt, s')
    /\ length <$> audit_entries s' = Some 1
    /\ heap s' !! m =
         Some (ODict (<["error" := VStr "boom"]>
                     (<["error_type" := VStr "ValueError"]> ∅)))
    /\ _current_run s' = None.
Proof.
  destruct (on_llm_error_records "2024-01-01T00:00:02"
              (mk_error "boom" "ValueError")
              (AVPCredentialCallback.__init__ []) [])
    as (s' & m & R & A & H & C); [reflexivity|].
  exists s', m. split; [exact R|]. split; [by rewrite A|].
  split; [exact H|exact C].
Defined.

Lemma on_llm_end_records_witness :
  exists s' m,
    on_llm_end "2024-01-01T00:00:01" (mk_result [VStr "Hi"] (VRef 1))
      (AVPCredentialCallback.__init__ usage_heap) = (Returns tt, s')
    /\ heap s' !! m =
         Some (ODict (<["generations" := VInt 1]>
                     (<["token_usage" := VRef 0]> ∅))).
Proof.
  destruct (on_llm_end_records "2024-01-01T00:00:01"
              (mk_result [VStr "Hi"] (VRef 1))
              (AVPCredentialCallback.__init__ usage_heap) [])
    as (s' & m & usage & R & _ & H & U & _).
  - reflexivity.
  - intros l [= <-]. by eexists.
  - intros _. by eexists.
  - exists s', m. split; [exact R|]. rewrite H.
    rewrite (U {["token_usage" := VRef 0]} (VRef 0)); reflexivity.
Defined.

Lemma error_carries_run_id_witness :
  exists s2 es1 entry,
    on_llm_error "2024-01-01T00:00:02" (mk_error "boom" "ValueError")
      (snd (on_llm_start "2024-01-01T00:00:00" {["kwargs" := VNone]}
              ["Hello"] (Some "run-7") (AVPCredentialCallback.__init__ [])))
    = (Returns tt, s2)
    /\ audit_entries s2 = Some (es1 ++ [entry])
    /\ entry !! "run_id" = Some (VStr "run-7").
Proof.
  destruct (error_carries_run_id "2024-01-01T00:00:00" "2024-01-01T00:00:02"
              {["kwargs" := VNone]} ["Hello"] (Some "run-7")
              (mk_error "boom" "ValueError")
              (AVPCredentialCallback.__init__ []) [])
    as (s2 & es1 & entry & R & A & _ & I & _); [reflexivity|].
  exists s2, es1, entry. split; [exact R|]. split; [exact A|exact I].
Defined.

Lemma snapshot_is_stable_witness :
  read_entries
    (heap (snd (invoke_all
                  [ClearAuditLog;
                   OnLlmError "2024-01-01T00:00:03" (mk_error "late" "KeyError")]
                  (snd (get_audit_log one_error_logged)))))
    (VRef 3)
  = Some [error_entry].
Proof.
  refine (proj1 (snapshot_is_stable one_error_logged
                   (snd (get_audit_log one_error_logged)) [error_entry]
                   (VRef 3)
                   [ClearAuditLog;
                    OnLlmError "2024-01-01T00:00:03"
                      (mk_error "late" "KeyError")] _ _)); reflexivity.
Defined.

Example clear_keeps_the_run :
  let s := snd (invoke_all
                  [OnLlmStart "2024-01-01T00:00:00" ∅ [] (Some "run-1");
                   ClearAuditLog;
                   OnLlmEnd "2024-01-01T00:00:01" (mk_result [] VNone)]
                  (AVPCredentialCallback.__init__ [])) in
  audit_entries s =
    Some [<["metadata" := VRef 6]>
          (<["timestamp" := VStr "2024-01-01T00:00:01"]>
          (<["event" := VStr "llm_end"]>
          (<["run_id" := VStr "run-1"]> ∅)))].
Proof. reflexivity. Qed.

(** ** The outcome of a [with] statement *)

Section WithFacts.
Context {B : Type} `{!AVPClient B} `{!Codec} `{!Lower} `{!Backends B}.

(** X16. The outcome of [with provider: body], for a block that leaves
    the client attached: when the client's [close] raises, the [with]
    statement raises that exception -- also when the block had raised
    one of its own, which is then lost; when [close] returns, the
    [with] statement returns if the block returned and raises the
    block's exception if it raised. *)
Theorem with_outcome (body : M (AVPCredentialProvider.t B) unit)
    (s : AVPCredentialProvider.t B) :
  _client (snd (body s)) <> None ->
  fst (with_ body s) =
    match fst (client_close (_backend (snd (body s)))) with
    | Raises e' => Raises e'
    | Returns _ =>
        match fst (body s) with
        | Returns _ => Returns tt
        | Raises e => Raises e
        end
    end.
Proof.
  intros C. unfold with_, __enter__, __exit__. py_unfold.
  destruct (body s) as [[[]|e] s1]; simpl in *;
    rewrite close_attached by done;
    by destruct (client_close (_backend s1)) as [[[]|e'] b].
Qed.

End WithFacts.

Lemma with_outcome_witness :
  fst (with_ failing_block (connected empty_vault))
  = Raises (ValueError "boom").
Proof.
  rewrite (with_outcome failing_block (connected empty_vault));
    [reflexivity|discriminate].
Defined.
